(** * LeadGen AI Flow: the helpers of [app.py], embedded and verified

    The development follows [src/app.py]: the insight heuristic
    ([add_insights]), the filter engine ([filter_companies]) and the two
    email paths ([generate_email_template], [generate_email_with_groq]).

    Modelling choices.
    - A Python [str] is a [string]; case mapping, whitespace and the regex
      word class are modelled on the ASCII range, bytes above 127 are left
      alone by [lower] and are neither whitespace nor word characters.  On
      ASCII text the string primitives, [re.I] and [\b] are exact; outside
      it they are not ([re.I] also folds the dotless and dotted i and the
      long s, slices count code points), and a statement on which text
      matches a pattern says so by an [ascii_text] hypothesis.
    - A Python object is a [value]: [None], [bool], [int], [str], [list]
      and [dict] with string keys (no floats).  A company record is a dict,
      as in the source, so that missing and ill-typed fields can be stated.
    - A call returns a [result]: a value, or the exception it raised;
      [try]/[except] is a [match] on it.
    - What the interpreter, the standard library and [requests] decide
      ([repr], [str(exc)], [json.loads], [requests.post]) is a variable of
      the section [App]; [generate_email_with_groq] returns, next to its
      result, the list of the requests it sent.
    - The specification's data model types the fields of a record
      ([employeeCount] an integer, [industry] and [location] strings).  A
      property of the filter, of the insights or of the emails is stated for
      the dicts that carry, with these types, the fields the helper reads;
      the properties on missing or ill-typed fields quantify over all
      dicts. *)

From Stdlib Require Import ZArith Lia List Bool Ascii String.
From Stdlib Require Import Numbers.DecimalString.
From stdpp Require Import base option list gmap strings.

Local Open Scope Z_scope.

(** ** Python strings *)

Module PyStr.

(** [str.isspace] on one ASCII character: TAB..CR, FS..US and the space. *)
Definition is_space (c : ascii) : bool :=
  let n := nat_of_ascii c in
  ((9 <=? n)%nat && (n <=? 13)%nat) || ((28 <=? n)%nat && (n <=? 32)%nat).

Definition is_upper (c : ascii) : bool :=
  let n := nat_of_ascii c in (65 <=? n)%nat && (n <=? 90)%nat.

Definition is_lower (c : ascii) : bool :=
  let n := nat_of_ascii c in (97 <=? n)%nat && (n <=? 122)%nat.

Definition is_digit (c : ascii) : bool :=
  let n := nat_of_ascii c in (48 <=? n)%nat && (n <=? 57)%nat.

(** The regex class [\w]. *)
Definition is_word (c : ascii) : bool :=
  is_upper c || is_lower c || is_digit c || Ascii.eqb c "_"%char.

Definition lower_char (c : ascii) : ascii :=
  if is_upper c then ascii_of_nat (nat_of_ascii c + 32) else c.

(** [s.lower()] *)
Fixpoint lower (s : string) : string :=
  match s with
  | EmptyString => EmptyString
  | String c r => String (lower_char c) (lower r)
  end.

(** [s.lstrip()] and [s.lstrip(chars)], by the set of characters removed. *)
Fixpoint lstrip_by (p : ascii -> bool) (s : string) : string :=
  match s with
  | EmptyString => EmptyString
  | String c r => if p c then lstrip_by p r else s
  end.

Fixpoint rstrip_by (p : ascii -> bool) (s : string) : string :=
  match s with
  | EmptyString => EmptyString
  | String c r =>
      match rstrip_by p r with
      | EmptyString => if p c then EmptyString else String c EmptyString
      | r' => String c r'
      end
  end.

Definition strip_by (p : ascii -> bool) (s : string) : string :=
  rstrip_by p (lstrip_by p s).

(** [s.strip()] *)
Definition strip (s : string) : string := strip_by is_space s.

(** [s.strip("`")] *)
Definition strip_backticks (s : string) : string :=
  strip_by (Ascii.eqb "`"%char) s.

(** [s.startswith(p)] *)
Fixpoint startswith (p s : string) : bool :=
  match p, s with
  | EmptyString, _ => true
  | String a p', String b s' => Ascii.eqb a b && startswith p' s'
  | String _ _, EmptyString => false
  end.

(** [q in s] *)
Fixpoint contains (q s : string) : bool :=
  startswith q s ||
  match s with
  | EmptyString => false
  | String _ r => contains q r
  end.

(** [s[:n]] *)
Fixpoint take (n : nat) (s : string) : string :=
  match n, s with
  | O, _ => EmptyString
  | _, EmptyString => EmptyString
  | S n', String c r => String c (take n' r)
  end.

(** [sep.join(l)] *)
Fixpoint join (sep : string) (l : list string) : string :=
  match l with
  | [] => EmptyString
  | [x] => x
  | x :: r => x +:+ sep +:+ join sep r
  end.

(** [s.split()]: the maximal runs of non-whitespace characters.  [cur] is
    the run being read, if one is open. *)
Fixpoint split_from (cur : option string) (s : string) : list string :=
  match s with
  | EmptyString => match cur with Some w => [w] | None => [] end
  | String c r =>
      if is_space c
      then match cur with
           | Some w => w :: split_from None r
           | None => split_from None r
           end
      else split_from (Some (match cur with
                             | Some w => w +:+ String c EmptyString
                             | None => String c EmptyString
                             end)) r
  end.

Definition split (s : string) : list string := split_from None s.

(** The line boundaries of [str.splitlines] in the ASCII range:
    LF, VT, FF, CR, FS, GS, RS (and CR LF as one boundary). *)
Definition is_linebreak (c : ascii) : bool :=
  let n := nat_of_ascii c in
  ((10 <=? n)%nat && (n <=? 13)%nat) || ((28 <=? n)%nat && (n <=? 30)%nat).

Definition is_cr (c : ascii) : bool := (nat_of_ascii c =? 13)%nat.
Definition is_lf (c : ascii) : bool := (nat_of_ascii c =? 10)%nat.

(** [s.splitlines()]: [cur] is the line being read, if one is open;
    [after_cr] says that the last character closed a line with CR, so that
    a LF coming next belongs to the same boundary.  A final line break opens
    no empty last line. *)
Fixpoint splitlines_from (cur : option string) (after_cr : bool) (s : string)
  : list string :=
  match s with
  | EmptyString => match cur with Some l => [l] | None => [] end
  | String c r =>
      if after_cr && is_lf c then splitlines_from cur false r
      else if is_linebreak c then
        default EmptyString cur :: splitlines_from None (is_cr c) r
      else
        splitlines_from (Some (default EmptyString cur +:+ String c EmptyString))
                        false r
  end.

Definition splitlines (s : string) : list string :=
  splitlines_from None false s.

(** The whitespace [int] skips around a literal in an ASCII text: TAB..CR
    and the space.  FS..US, which [str.strip] removes, are not skipped. *)
Definition is_int_space (c : ascii) : bool :=
  let n := nat_of_ascii c in
  ((9 <=? n)%nat && (n <=? 13)%nat) || (n =? 32)%nat.

(** [int(s)] for a string: optional surrounding whitespace, an optional
    sign, then decimal digits in which single underscores may separate
    digits.  [after_digit] says that the last character read was a digit.
    CPython's limit on the number of digits of a converted text (4300 by
    default) is not modelled. *)
Definition digit_val (c : ascii) : Z := Z.of_nat (nat_of_ascii c) - 48.

Fixpoint int_digits (acc : Z) (after_digit : bool) (s : string) : option Z :=
  match s with
  | EmptyString => if after_digit then Some acc else None
  | String c r =>
      if is_digit c then int_digits (10 * acc + digit_val c) true r
      else if Ascii.eqb c "_"%char && after_digit then int_digits acc false r
      else None
  end.

Definition int_of_str (s : string) : option Z :=
  match strip_by is_int_space s with
  | String c r =>
      if Ascii.eqb c "-"%char then Z.opp <$> int_digits 0 false r
      else if Ascii.eqb c "+"%char then int_digits 0 false r
      else int_digits 0 false (String c r)
  | EmptyString => None
  end.

(** [str(n)] for an integer; CPython's limit on the number of digits it
    prints (4300 by default) is not modelled. *)
Definition str_of_int (n : Z) : string :=
  NilZero.string_of_int (Z.to_int n).

Definition head (s : string) : option ascii :=
  match s with String c _ => Some c | EmptyString => None end.

Definition is_word_at (o : option ascii) : bool :=
  match o with Some c => is_word c | None => false end.

(** The regex assertion [\b] between [prev] and [next]. *)
Definition word_boundary (prev next : option ascii) : bool :=
  xorb (is_word_at prev) (is_word_at next).

(** [re.search(p, s, re.I)] for a pattern [p] of plain letters; exact on
    ASCII text. *)
Definition search_literal_i (p s : string) : bool :=
  contains (lower p) (lower s).

(** One attempt of [\bIN\b|India] (with [re.I]) at the start of [s],
    [prev] being the character before it; exact on ASCII text. *)
Definition in_or_india_at (prev : option ascii) (s : string) : bool :=
  match lower s with
  | String i (String n rest) =>
      (word_boundary prev (head s)
       && Ascii.eqb i "i"%char && Ascii.eqb n "n"%char
       && word_boundary (Some n) (head rest))
      || startswith "india" (lower s)
  | _ => false
  end.

(** [re.search(r"\bIN\b|India", s, re.I)] as a truth value. *)
Fixpoint search_in_or_india_from (prev : option ascii) (s : string) : bool :=
  in_or_india_at prev s ||
  match s with
  | EmptyString => false
  | String c r => search_in_or_india_from (Some c) r
  end.

Definition search_in_or_india (s : string) : bool :=
  search_in_or_india_from None s.

End PyStr.


(** ** Python values, exceptions and dict access *)

#[warnings="-register-all"]
Inductive value : Type :=
  | VNone
  | VBool (b : bool)
  | VInt (n : Z)
  | VStr (s : string)
  | VList (l : list value)
  | VDict (d : gmap string value).

(** A [Dict[str, Any]]: company records, parsed JSON objects, email results. *)
Abbreviation dict := (gmap string value).

(** The exceptions the helpers can meet.  All but the last are raised by
    the interpreter on the operations of [app.py]: a missing method
    ([AttributeError]), [int(v)] on a type or on a literal it rejects
    ([TypeError], [ValueError]), [v[0]] on an object without items
    ([TypeError]), on an empty sequence ([IndexError]) or on a dict
    ([KeyError]), and [re.search] on a non-string ([TypeError]).
    [LibraryError] is anything raised inside [json] or [requests], with its
    class name and [str(exc)]. *)
Inductive exn : Type :=
  | AttributeError (type_name attr : string)
  | IntTypeError (type_name : string)
  | IntValueError (literal : string)
  | SubscriptError (type_name : string)
  | IndexError (type_name : string)
  | KeyError (key : Z)
  | SearchTypeError (type_name : string)
  | LibraryError (class text : string).

Inductive result (A : Type) : Type :=
  | Ok (a : A)
  | Raise (e : exn).
Arguments Ok {A} a.
Arguments Raise {A} e.

#[global] Instance result_ret : MRet result := fun A a => Ok a.
#[global] Instance result_bind : MBind result := fun A B f r =>
  match r with
  | Ok a => f a
  | Raise e => Raise e
  end.
#[global] Instance result_fmap : FMap result := fun A B f r =>
  match r with
  | Ok a => Ok (f a)
  | Raise e => Raise e
  end.

Module Py.

(** [type(v).__name__] *)
Definition type_name (v : value) : string :=
  match v with
  | VNone => "NoneType"
  | VBool _ => "bool"
  | VInt _ => "int"
  | VStr _ => "str"
  | VList _ => "list"
  | VDict _ => "dict"
  end.

(** [bool(v)] *)
Definition truthy (v : value) : bool :=
  match v with
  | VNone => false
  | VBool b => b
  | VInt n => negb (n =? 0)
  | VStr s => match s with EmptyString => false | String _ _ => true end
  | VList l => match l with [] => false | _ :: _ => true end
  | VDict d => match map_to_list d with [] => false | _ :: _ => true end
  end.

(** [a or b] *)
Definition or_else (a b : value) : value := if truthy a then a else b.

(** [d.get(k)] and [d.get(k, dflt)] *)
Definition get (d : dict) (k : string) : value := default VNone (d !! k).
Definition get_or (d : dict) (k : string) (dflt : value) : value :=
  default dflt (d !! k).

(** [v.get(k, dflt)] on an arbitrary object: only a dict has [get]. *)
Definition call_get (v : value) (k : string) (dflt : value) : result value :=
  match v with
  | VDict d => Ok (get_or d k dflt)
  | _ => Raise (AttributeError (type_name v) "get")
  end.

(** The receiver of a [str] method call [v.attr()]: any other object has
    no such attribute. *)
Definition str_receiver (attr : string) (v : value) : result string :=
  match v with
  | VStr s => Ok s
  | _ => Raise (AttributeError (type_name v) attr)
  end.

(** [v.lower()] *)
Definition call_lower (v : value) : result string :=
  PyStr.lower <$> str_receiver "lower" v.

(** [int(v)] *)
Definition int (v : value) : result Z :=
  match v with
  | VInt n => Ok n
  | VBool b => Ok (if b then 1 else 0)
  | VStr s => match PyStr.int_of_str s with
              | Some n => Ok n
              | None => Raise (IntValueError s)
              end
  | _ => Raise (IntTypeError (type_name v))
  end.

(** [v[0]]: the first element of a list, the first character of a string;
    a dict with string keys has no key [0]. *)
Definition first_item (v : value) : result value :=
  match v with
  | VList (x :: _) => Ok x
  | VStr (String c _) => Ok (VStr (String c EmptyString))
  | VList [] | VStr EmptyString => Raise (IndexError (type_name v))
  | VDict _ => Raise (KeyError 0)
  | _ => Raise (SubscriptError (type_name v))
  end.

(** [re.search(pattern, v, re.I)] needs a string to search. *)
Definition as_subject (v : value) : result string :=
  match v with
  | VStr s => Ok s
  | _ => Raise (SearchTypeError (type_name v))
  end.

End Py.

(** ** The helpers of [app.py] *)

(** The seed data. *)
Definition company_record (name website : string) (employees : Z)
    (industry location : string) : dict :=
  <["location" := VStr location]>
    (<["industry" := VStr industry]>
      (<["employeeCount" := VInt employees]>
        (<["website" := VStr website]>
          (<["companyName" := VStr name]> ∅)))).

Definition technova : dict :=
  company_record "TechNova Solutions" "https://technova.example" 120
                 "Software" "Bengaluru, IN".
Definition greenmakers : dict :=
  company_record "GreenMakers Manufacturing" "https://greenmakers.example" 80
                 "Manufacturing" "Pune, IN".
Definition aerologix : dict :=
  company_record "AeroLogix Systems" "https://aerologix.example" 210
                 "Logistics" "Hyderabad, IN".

Definition SEED_COMPANIES : list dict := [technova; greenmakers; aerologix].

(** The [if]/[elif]/[else] chain on the industry. *)
Definition industry_bullets (industry : string) : list string :=
  if PyStr.search_literal_i "software" industry then
    ["SaaS roadmap includes AI/ML modules";
     "Active in developer ecosystem; likely uses CI/CD"]
  else if PyStr.search_literal_i "manufact" industry then
    ["Sustainable, lean operations focus";
     "Potential need for shop-floor IoT/SCADA integrations"]
  else if PyStr.search_literal_i "logistic" industry then
    ["Fleet optimization & real-time tracking";
     "Likely evaluating warehouse automation"]
  else ["Expanding digital footprint"].

Definition size_bullets (employee_count : Z) : list string :=
  if 150 <? employee_count then ["Mid-market team with scaling pains"] else [].

Definition location_bullets (location : string) : list string :=
  if PyStr.search_in_or_india location
  then ["Operating in India with regional growth"] else [].

Definition add_insights (j : dict) : result (list string) :=
  industry ← Py.call_lower (Py.or_else (Py.get j "industry") (VStr ""));
  employee_count ← Py.int (Py.get_or j "employeeCount" (VInt 0));
  let location := Py.or_else (Py.get j "location") (VStr "") in
  let bullets := [] in
  let bullets := bullets ++ industry_bullets industry in
  let bullets := bullets ++ size_bullets employee_count in
  location ← Py.as_subject location;
  let bullets := bullets ++ location_bullets location in
  Ok (firstn 3 bullets).

(** The HTTP exchange with the completion endpoint, as [requests] shows it
    to the caller. *)
Record request : Type := {
  url : string;
  headers : list (string * string);
  model : string;
  messages : list (string * string);   (* role, content *)
  temperature : Z * Z;                 (* 0.4 as 4 / 10 *)
  timeout : Z
}.

Record response : Type := {
  raise_for_status : result unit;      (* an HTTPError on a 4xx/5xx status *)
  json : result value;                 (* [resp.json()] *)
  text : string                        (* [resp.text] *)
}.

Definition nl : string := String (ascii_of_nat 10) EmptyString.
Definition dq : string := String (ascii_of_nat 34) EmptyString.

Definition DEFAULT_MODEL : string := "moonshotai/kimi-k2-instruct".

(** A concrete runtime for the examples: a [repr] and a [str(exc)] that
    print what CPython prints on the values met in the examples, a table of
    [json.loads] on three documents, and an endpoint answering every
    request with a chat completion of a given content. *)
Definition example_repr (v : value) : string :=
  match v with
  | VList [] => "[]"
  | VDict _ => "{...}"
  | _ => "[...]"
  end.

Definition example_str_exn (e : exn) : string :=
  match e with
  | AttributeError t a =>
      "'" +:+ t +:+ "' object has no attribute '" +:+ a +:+ "'"
  | IntTypeError t =>
      "int() argument must be a string, a bytes-like object or a real number, not '"
      +:+ t +:+ "'"
  | IntValueError s => "invalid literal for int() with base 10: '" +:+ s +:+ "'"
  | SubscriptError t => "'" +:+ t +:+ "' object is not subscriptable"
  | IndexError t =>
      (if String.eqb t "str" then "string" else t) +:+ " index out of range"
  | KeyError k => PyStr.str_of_int k
  | SearchTypeError t => "expected string or bytes-like object, got '" +:+ t +:+ "'"
  | LibraryError _ text => text
  end.

Definition hello_document : string :=
  "{" +:+ dq +:+ "subject" +:+ dq +:+ ": " +:+ dq +:+ "Hello" +:+ dq +:+ "}".

Definition example_loads (s : string) : result value :=
  if String.eqb s "[]" then Ok (VList [])
  else if String.eqb s "{}" then Ok (VDict ∅)
  else if String.eqb s hello_document
  then Ok (VDict (<["subject" := VStr "Hello"]> ∅))
  else Raise (LibraryError "JSONDecodeError"
                           "Expecting value: line 1 column 1 (char 0)").

Definition completion (content : string) : value :=
  VDict (<["choices" :=
            VList [VDict (<["message" :=
                             VDict (<["content" := VStr content]> ∅)]> ∅)]]> ∅).

Definition example_post (content : string) (req : request) : result response :=
  Ok {| raise_for_status := Ok ();
        json := Ok (completion content);
        text := "" |}.

(** Three more endpoints: one that cannot be reached, one that answers
    with an error status, and one whose completion carries a content that
    is not a string. *)
Definition unreachable_post (req : request) : result response :=
  Raise (LibraryError "ConnectionError" "connection refused").

Definition unauthorized : response :=
  {| raise_for_status :=
       Raise (LibraryError "HTTPError" "401 Client Error: Unauthorized");
     json := Ok (VDict ∅);
     text := "invalid api key" |}.

Definition unauthorized_post (req : request) : result response :=
  Ok unauthorized.

Definition null_content : response :=
  {| raise_for_status := Ok ();
     json := Ok (VDict (<["choices" :=
                  VList [VDict (<["message" :=
                           VDict (<["content" := VNone]> ∅)]> ∅)]]> ∅));
     text := "" |}.

Definition null_content_post (req : request) : result response :=
  Ok null_content.

Section App.

#[local] Set Default Proof Using "Type".

(** [repr(v)], used by [str(v)] on lists and dicts. *)
Variable repr : value -> string.
(** [str(exc)] *)
Variable str_exn : exn -> string.
(** [json.loads] *)
Variable json_loads : string -> result value.
(** [requests.post] on the request built by the caller. *)
Variable requests_post : request -> result response.

(** [str(v)], also what an f-string field [{v}] prints. *)
Definition str (v : value) : string :=
  match v with
  | VNone => "None"
  | VBool b => if b then "True" else "False"
  | VInt n => PyStr.str_of_int n
  | VStr s => s
  | VList _ | VDict _ => repr v
  end.

(** The body of the [for] loop of [filter_companies], [out] being the list
    built so far; [industry_q] and [location_q] are already normalised. *)
Fixpoint filter_loop (industry_q location_q : string) (size_min size_max : Z)
    (items : list dict) (out : list dict) : result (list dict) :=
  match items with
  | [] => Ok out
  | it :: rest =>
      employee_count ← Py.int (Py.get_or it "employeeCount" (VInt 0));
      let industry_val := PyStr.lower (str (Py.get_or it "industry" (VStr ""))) in
      let location_val := PyStr.lower (str (Py.get_or it "location" (VStr ""))) in
      let ok_size := (size_min <=? employee_count) && (employee_count <=? size_max) in
      let ok_ind := if Py.truthy (VStr industry_q)
                    then PyStr.contains industry_q industry_val else true in
      let ok_loc := if Py.truthy (VStr location_q)
                    then PyStr.contains location_q location_val else true in
      filter_loop industry_q location_q size_min size_max rest
                  (if ok_size && ok_ind && ok_loc then out ++ [it] else out)
  end.

(** The queries are [str]: [(q or "")] is [q] itself. *)
Definition filter_companies (items : list dict) (industry_q location_q : string)
    (size_min size_max : Z) : result (list dict) :=
  let out := [] in
  let industry_q := PyStr.strip (PyStr.lower industry_q) in
  let location_q := PyStr.strip (PyStr.lower location_q) in
  filter_loop industry_q location_q size_min size_max items out.

Definition template_body (company : dict) (bullets : string) : string :=
  "Hi " +:+ str (Py.get company "companyName") +:+ "," +:+ nl +:+ nl
  +:+ "I came across your work at " +:+ str (Py.get company "companyName")
  +:+ " and noticed: " +:+ bullets +:+ ". "
  +:+ "We help teams like yours turn these priorities into measurable outcomes with a lightweight rollout and clear ROI within a few weeks. "
  +:+ "If it’s useful, I can share a brief walkthrough tailored to "
  +:+ str (Py.get company "industry")
  +:+ " and your current team size of "
  +:+ str (Py.get company "employeeCount") +:+ "." +:+ nl +:+ nl
  +:+ "Warm Regards," +:+ nl
  +:+ "Rohith Dilip" +:+ nl
  +:+ "Wednesday Solutions".

Definition generate_email_template (company : dict) (insights : list string)
  : result dict :=
  let bullets := PyStr.join "; " insights in
  let body := template_body company bullets in
  industry_lower ← Py.call_lower (Py.get company "industry");
  Ok (<["wordCount" := VInt (Z.of_nat (length (PyStr.split body)))]>
       (<["tone" := VStr "consultative"]>
         (<["body" := VStr body]>
           (<["subject" := VStr (str (Py.get company "companyName")
                                 +:+ ": quick idea to accelerate "
                                 +:+ industry_lower +:+ " goals")]>
             (<["company" := Py.get company "companyName"]> ∅))))).

Definition system_msg : string :=
  "You are a professional B2B sales assistant. "
  +:+ "Return output as strict JSON only (no prose, no backticks). "
  +:+ "Schema: {" +:+ dq +:+ "company" +:+ dq +:+ ":" +:+ dq +:+ "string" +:+ dq
  +:+ "," +:+ dq +:+ "subject" +:+ dq +:+ ":" +:+ dq +:+ "string" +:+ dq
  +:+ "," +:+ dq +:+ "body" +:+ dq +:+ ":" +:+ dq +:+ "string" +:+ dq
  +:+ "," +:+ dq +:+ "tone" +:+ dq +:+ ":" +:+ dq +:+ "string" +:+ dq
  +:+ "," +:+ dq +:+ "wordCount" +:+ dq +:+ ":number} "
  +:+ "All fields must always be present. Ensure body has 80-120 words.".

Definition user_prompt (company : dict) (insights : list string) : string :=
  "Company: " +:+ str (Py.get company "companyName") +:+ nl
  +:+ "Website: " +:+ str (Py.get company "website") +:+ nl
  +:+ "Industry: " +:+ str (Py.get company "industry") +:+ nl
  +:+ "Employees: " +:+ str (Py.get company "employeeCount") +:+ nl
  +:+ "Insights:" +:+ nl +:+ PyStr.join nl insights +:+ nl +:+ nl
  +:+ "Write a concise outreach email (80–120 words) in a consultative and professional tone. "
  +:+ "The email should naturally reference the provided insights and be structured as a clear, personalized message to the company. "
  +:+ "Conclude the email with the following signature block:" +:+ nl +:+ nl
  +:+ "Warm Regards," +:+ nl +:+ "Rohith Dilip" +:+ nl +:+ "Wednesday Solutions".

Definition build_request (api_key : string) (company : dict)
    (insights : list string) : request :=
  {| url := "https://api.groq.com/openai/v1/chat/completions";
     headers := [("Authorization", "Bearer " +:+ api_key);
                 ("Content-Type", "application/json")];
     model := DEFAULT_MODEL;
     messages := [("system", system_msg);
                  ("user", user_prompt company insights)];
     temperature := (4, 10);
     timeout := 30 |}.

(** [(data.get("choices") or [{}])[0].get("message", {}).get("content", "")] *)
Definition message_content (data : value) : result value :=
  choices ← Py.call_get data "choices" VNone;
  first ← Py.first_item (Py.or_else choices (VList [VDict ∅]));
  message ← Py.call_get first "message" (VDict ∅);
  Py.call_get message "content" (VStr "").

(** The clean-up of the content before parsing: surrounding whitespace,
    then, for a content opening with a code fence, the backticks at both
    ends and a first line that only says [json]. *)
Definition clean_content (content : string) : string :=
  let cleaned := PyStr.strip content in
  if PyStr.startswith "```" cleaned then
    let cleaned := PyStr.strip_backticks cleaned in
    let cleaned_lines := PyStr.splitlines cleaned in
    let cleaned_lines :=
      match cleaned_lines with
      | first :: rest =>
          if String.eqb (PyStr.lower (PyStr.strip first)) "json"
          then rest else cleaned_lines
      | [] => cleaned_lines
      end in
    PyStr.join nl cleaned_lines
  else cleaned.

(** The inner [try] block: parse, then read the five fields. *)
Definition parse_result (company : dict) (cleaned : string) : result dict :=
  obj ← json_loads cleaned;
  o_company ← Py.call_get obj "company" VNone;
  o_subject ← Py.call_get obj "subject" VNone;
  o_body ← Py.call_get obj "body" VNone;
  o_tone ← Py.call_get obj "tone" VNone;
  o_word_count ← Py.call_get obj "wordCount" VNone;
  Ok (<["source" := VStr "groq"]>
       (<["wordCount" := Py.or_else o_word_count VNone]>
         (<["tone" := Py.or_else o_tone (VStr "consultative")]>
           (<["body" := Py.or_else o_body (VStr "")]>
             (<["subject" := Py.or_else o_subject
                                        (VStr "Exploring a tailored approach")]>
               (<["company" := Py.or_else o_company
                                          (Py.get company "companyName")]> ∅)))))).

(** The template result marked as a fallback, with the reason. *)
Definition template_fallback (company : dict) (insights : list string)
    (error : string) : result dict :=
  result ← generate_email_template company insights;
  let result := <["source" := VStr "template"]> result in
  let result := <["error" := VStr error]> result in
  Ok result.

(** The outer [try] block once [requests.post] has returned [resp]. *)
Definition read_response (company : dict) (insights : list string)
    (resp : response) : result dict :=
  _ ← raise_for_status resp;
  data ← json resp;
  content ← message_content data;
  content ← Py.str_receiver "strip" content;
  let cleaned := clean_content content in
  match parse_result company cleaned with
  | Ok result => Ok result
  | Raise parse_err =>
      template_fallback company insights
        ("ParseError: " +:+ str_exn parse_err +:+ "; content="
         +:+ PyStr.take 300 content +:+ "...")
  end.

(** [generate_email_with_groq], given the value of the global
    [GROQ_API_KEY] ([os.getenv]: a string or [None]).  The second component
    lists the requests sent. *)
Definition generate_email_with_groq (GROQ_API_KEY : option string)
    (company : dict) (insights : list string) : result dict * list request :=
  let api_key := GROQ_API_KEY in
  match api_key with
  | None | Some EmptyString =>
      (template_fallback company insights "Missing GROQ_API_KEY", [])
  | Some api_key =>
      let req := build_request api_key company insights in
      let attempt : result dict * option response :=
        match requests_post req with
        | Raise e => (Raise e, None)
        | Ok resp => (read_response company insights resp, Some resp)
        end in
      (match attempt with
       | (Ok result, _) => Ok result
       | (Raise req_err, resp) =>
           let err_text :=
             match resp with
             | Some resp => PyStr.take 300 (text resp)
             | None => ""
             end in
           template_fallback company insights
             ("RequestError: " +:+ str_exn req_err +:+ "; response=" +:+ err_text)
       end, [req])
  end.

(** One row of the results table, built from the email, the company and
    its insights. *)
Definition result_row (email comp : dict) (ins : list string) : dict :=
  <["Insights" := VStr (PyStr.join nl ins)]>
    (<["Location" := Py.get comp "location"]>
      (<["Employees" := Py.get comp "employeeCount"]>
        (<["Industry" := Py.get comp "industry"]>
          (<["Website" := Py.get comp "website"]>
            (<["LLM Error" := Py.get email "error"]>
              (<["Source" := Py.get email "source"]>
                (<["Word Count" := Py.get email "wordCount"]>
                  (<["Tone" := Py.get email "tone"]>
                    (<["Body For Email" := Py.get email "body"]>
                      (<["Subject" := Py.get email "subject"]>
                        (<["Company Name" := Py.get email "company"]> ∅))))))))))).

(** The loop [for comp in filtered] of the Run handler: [results] are the
    rows appended so far, [sent] the requests sent so far.  Nothing catches
    an exception of [add_insights] or of the email path here.  The endpoint
    being a function of the request, two equal requests of one run get the
    same answer. *)
Fixpoint results_loop (GROQ_API_KEY : option string) (filtered : list dict)
    (results : list dict) (sent : list request)
  : result (list dict) * list request :=
  match filtered with
  | [] => (Ok results, sent)
  | comp :: rest =>
      match add_insights comp with
      | Raise e => (Raise e, sent)
      | Ok ins =>
          match generate_email_with_groq GROQ_API_KEY comp ins with
          | (Raise e, reqs) => (Raise e, sent ++ reqs)
          | (Ok email, reqs) =>
              results_loop GROQ_API_KEY rest
                           (results ++ [result_row email comp ins])
                           (sent ++ reqs)
          end
      end
  end.

(** What a press on Run leaves on the page: whether the "No companies
    matched" warning is shown, the rows, and whether the Results section
    (table, CSV download, sample JSON) is rendered. *)
Record run_page : Type := {
  warning_shown : bool;
  rows : list dict;
  results_shown : bool
}.

(** The handler of the Run button over the records [items] (the page
    passes [SEED_COMPANIES]) and the four sidebar inputs. *)
Definition run (GROQ_API_KEY : option string) (items : list dict)
    (industry location : string) (size_min size_max : Z)
  : result run_page * list request :=
  match filter_companies items industry location size_min size_max with
  | Raise e => (Raise e, [])
  | Ok filtered =>
      let warning := negb (Py.truthy (VList (VDict <$> filtered))) in
      match results_loop GROQ_API_KEY filtered [] [] with
      | (Raise e, sent) => (Raise e, sent)
      | (Ok results, sent) =>
          (Ok {| warning_shown := warning;
                 rows := results;
                 results_shown := Py.truthy (VList (VDict <$> results)) |},
           sent)
      end
  end.

(** ** The specification's wording, for comparison with the code *)

(** [q] occurs in [s] as a substring. *)
Definition is_substring (q s : string) : Prop :=
  ∃ pre suf, s = pre +:+ q +:+ suf.

(** [q] occurs in [s] when case is ignored. *)
Definition is_substring_ci (q s : string) : Prop :=
  is_substring (PyStr.lower q) (PyStr.lower s).

(** A query "trimmed and lower-cased". *)
Definition normalised (q : string) : string := PyStr.lower (PyStr.strip q).

(** The employee count of a record: "coerced to an integer, defaulting to
    0 if absent". *)
Definition employee_count (r : dict) : result Z :=
  Py.int (Py.get_or r "employeeCount" (VInt 0)).

(** A text field of a record, empty if absent. *)
Definition field_text (r : dict) (k : string) : string :=
  str (Py.get_or r k (VStr "")).

(** The record has an employee count that [int] accepts. *)
Definition has_count (r : dict) : Prop := ∃ n, employee_count r = Ok n.

(** The matching rule of the Filter Engine. *)
Definition matches (industryQuery locationQuery : string) (sizeMin sizeMax : Z)
    (r : dict) : Prop :=
  (∃ n, employee_count r = Ok n ∧ sizeMin ≤ n ≤ sizeMax)
  ∧ (industryQuery = ""
     ∨ is_substring_ci (normalised industryQuery) (field_text r "industry"))
  ∧ (locationQuery = ""
     ∨ is_substring_ci (normalised locationQuery) (field_text r "location")).

(** The number of whitespace-delimited tokens of [s]: the positions where a
    non-whitespace character follows whitespace or opens the string. *)
Fixpoint token_starts (after_space : bool) (s : string) : nat :=
  match s with
  | EmptyString => 0%nat
  | String c r =>
      ((if after_space && negb (PyStr.is_space c) then 1 else 0)
       + token_starts (PyStr.is_space c) r)%nat
  end.

Definition whitespace_tokens (s : string) : nat := token_starts true s.

(** A record field that is absent or holds a string, or an integer. *)
Definition str_or_absent (r : dict) (k : string) : Prop :=
  ∀ v, r !! k = Some v → ∃ s, v = VStr s.

Definition int_or_absent (r : dict) (k : string) : Prop :=
  ∀ v, r !! k = Some v → ∃ n, v = VInt n.

(** A text field and an integer field as the Insight Generator reads them:
    "missing employeeCount treated as 0; missing industry/location treated
    as empty string". *)
Definition text_of (r : dict) (k : string) : string :=
  match r !! k with Some (VStr s) => s | _ => "" end.

Definition count_of (r : dict) : Z :=
  match r !! "employeeCount" with Some (VInt n) => n | _ => 0 end.

(** The insights in derivation order, before truncation. *)
Definition insights_in_order (r : dict) : list string :=
  industry_bullets (PyStr.lower (text_of r "industry"))
  ++ size_bullets (count_of r)
  ++ location_bullets (text_of r "location").

(** A field of the parsed object, with its default "when absent or
    falsy". *)
Definition field_or_default (obj : dict) (k : string) (dflt : value) : value :=
  match obj !! k with
  | Some v => if Py.truthy v then v else dflt
  | None => dflt
  end.

(** With the credential [key], the request for [company] and [insights] is
    answered by a successful response whose first choice carries the
    message content [content]. *)
Definition answered_with (key : string) (company : dict)
    (insights : list string) (content : string) : Prop :=
  key ≠ ""
  ∧ ∃ resp data,
      requests_post (build_request key company insights) = Ok resp
      ∧ raise_for_status resp = Ok ()
      ∧ json resp = Ok data
      ∧ message_content data = Ok (VStr content).

(** No credential: [os.getenv] gave [None] or the empty string. *)
Definition no_credential (key : option string) : Prop :=
  key = None ∨ key = Some "".

(** A value that [(v or "")] turns into a string: falsy, or a string. *)
Definition falsy_or_str (v : value) : Prop :=
  Py.truthy v = false ∨ ∃ s, v = VStr s.

(** The last character of [s], or [prev] for the empty string. *)
Fixpoint last_or (prev : option ascii) (s : string) : option ascii :=
  match s with
  | EmptyString => prev
  | String c r => last_or (Some c) r
  end.

(** The industry of the record matches one of the three patterns. *)
Definition known_industry (r : dict) : Prop :=
  is_substring_ci "software" (text_of r "industry")
  ∨ is_substring_ci "manufact" (text_of r "industry")
  ∨ is_substring_ci "logistic" (text_of r "industry").

(** Every character of [s] satisfies [p]. *)
Fixpoint all_chars (p : ascii → bool) (s : string) : bool :=
  match s with
  | EmptyString => true
  | String c r => p c && all_chars p r
  end.

(** A text without line breaks. *)
Definition single_line (s : string) : Prop :=
  all_chars (λ c, negb (PyStr.is_linebreak c)) s = true.

(** A text of ASCII characters only. *)
Definition is_ascii (c : ascii) : bool := (nat_of_ascii c <? 128)%nat.

Definition ascii_text (s : string) : Prop := all_chars is_ascii s = true.





(** A record as the data model has it, as far as the run reads it: a string
    industry, and an integer employee count and a string location if
    present. *)
Definition well_formed (r : dict) : Prop :=
  (∃ s, r !! "industry" = Some (VStr s))
  ∧ int_or_absent r "employeeCount"
  ∧ str_or_absent r "location".

(** The row shown for the company [comp]: its four fields, and the source
    of the email with its error, [None] for an email from the model. *)
Definition row_of (comp row : dict) : Prop :=
  row !! "Website" = Some (Py.get comp "website")
  ∧ row !! "Industry" = Some (Py.get comp "industry")
  ∧ row !! "Employees" = Some (Py.get comp "employeeCount")
  ∧ row !! "Location" = Some (Py.get comp "location")
  ∧ ((row !! "Source" = Some (VStr "groq") ∧ row !! "LLM Error" = Some VNone)
     ∨ (row !! "Source" = Some (VStr "template")
        ∧ ∃ err, row !! "LLM Error" = Some (VStr err))).

(** ** Facts on the string primitives *)

Ltac ascii_cases c :=
  destruct c as [[|] [|] [|] [|] [|] [|] [|] [|]]; reflexivity.

Lemma lower_char_idemp c : PyStr.lower_char (PyStr.lower_char c) = PyStr.lower_char c.
Proof. ascii_cases c. Qed.

Lemma is_space_lower_char c : PyStr.is_space (PyStr.lower_char c) = PyStr.is_space c.
Proof. ascii_cases c. Qed.

Lemma lower_idemp s : PyStr.lower (PyStr.lower s) = PyStr.lower s.
Proof.
  induction s as [|c r IH]; [reflexivity|].
  cbn [PyStr.lower]. by rewrite lower_char_idemp, IH.
Qed.

Lemma lstrip_lower s :
  PyStr.lstrip_by PyStr.is_space (PyStr.lower s)
  = PyStr.lower (PyStr.lstrip_by PyStr.is_space s).
Proof.
  induction s as [|c r IH]; [reflexivity|].
  cbn [PyStr.lower PyStr.lstrip_by]. rewrite is_space_lower_char.
  destruct (PyStr.is_space c); [exact IH | reflexivity].
Qed.

Lemma rstrip_lower s :
  PyStr.rstrip_by PyStr.is_space (PyStr.lower s)
  = PyStr.lower (PyStr.rstrip_by PyStr.is_space s).
Proof.
  induction s as [|c r IH]; [reflexivity|].
  cbn [PyStr.lower PyStr.rstrip_by]. rewrite IH, is_space_lower_char.
  destruct (PyStr.rstrip_by PyStr.is_space r); cbn [PyStr.lower];
    [destruct (PyStr.is_space c)|]; reflexivity.
Qed.

(** Trimming and lower-casing commute: the code lower-cases first, the
    specification trims first. *)
Lemma strip_lower s : PyStr.strip (PyStr.lower s) = PyStr.lower (PyStr.strip s).
Proof.
  unfold PyStr.strip, PyStr.strip_by. by rewrite lstrip_lower, rstrip_lower.
Qed.

Lemma startswith_spec p s :
  PyStr.startswith p s = true ↔ ∃ suf, s = p +:+ suf.
Proof.
  revert s. induction p as [|a p IH]; intros s; cbn [PyStr.startswith].
  - split; [eauto|done].
  - destruct s as [|b s].
    + split; [done | intros [suf H]; discriminate H].
    + rewrite andb_true_iff, Ascii.eqb_eq, IH. split.
      * intros [-> [suf ->]]. by exists suf.
      * intros [suf H]. injection H as -> ->. eauto.
Qed.

Lemma contains_unfold q s :
  PyStr.contains q s
  = PyStr.startswith q s
    || match s with EmptyString => false | String _ r => PyStr.contains q r end.
Proof. by destruct s. Qed.

(** Python's [q in s] decides the substring relation. *)
Lemma contains_spec q s : PyStr.contains q s = true ↔ is_substring q s.
Proof.
  unfold is_substring. induction s as [|c r IH]; rewrite contains_unfold.
  - rewrite orb_false_r, startswith_spec. split.
    + intros [suf H]. by exists EmptyString, suf.
    + intros [[|a pre] [suf H]]; [by exists suf | discriminate H].
  - rewrite orb_true_iff, startswith_spec, IH. split.
    + intros [[suf H] | (pre & suf & H)].
      * by exists EmptyString, suf.
      * exists (String c pre), suf. cbn. by rewrite H.
    + intros [[|a pre] [suf H]].
      * left. by exists suf.
      * right. injection H as -> ->. eauto.
Qed.

Lemma contains_empty s : PyStr.contains EmptyString s = true.
Proof. by destruct s. Qed.

#[global] Instance is_substring_dec q s : Decision (is_substring q s).
Proof.
  destruct (PyStr.contains q s) eqn:E.
  - left. by apply contains_spec.
  - right. intros H. apply contains_spec in H. congruence.
Defined.

#[global] Instance matches_dec iq lq lo hi r : Decision (matches iq lq lo hi r).
Proof.
  unfold matches, is_substring_ci.
  apply and_dec; [|apply _].
  destruct (employee_count r) as [n|e].
  - destruct (decide (lo ≤ n ≤ hi)) as [H|H].
    + left. eauto.
    + right. intros (m & [= <-] & Hm). done.
  - right. intros (m & [=] & _).
Defined.

(** ** The filter engine *)

Lemma filter_loop_cons iq lq lo hi it rest out :
  filter_loop iq lq lo hi (it :: rest) out
  = (employee_count ← Py.int (Py.get_or it "employeeCount" (VInt 0));
     let industry_val := PyStr.lower (str (Py.get_or it "industry" (VStr ""))) in
     let location_val := PyStr.lower (str (Py.get_or it "location" (VStr ""))) in
     let ok_size := (lo <=? employee_count) && (employee_count <=? hi) in
     let ok_ind := if Py.truthy (VStr iq)
                   then PyStr.contains iq industry_val else true in
     let ok_loc := if Py.truthy (VStr lq)
                   then PyStr.contains lq location_val else true in
     filter_loop iq lq lo hi rest
                 (if ok_size && ok_ind && ok_loc then out ++ [it] else out)).
Proof. reflexivity. Qed.

(** The test on one query, as the code runs it and as the specification
    words it. *)
Lemma query_test_spec q t :
  (if Py.truthy (VStr (PyStr.strip (PyStr.lower q)))
   then PyStr.contains (PyStr.strip (PyStr.lower q)) (PyStr.lower t)
   else true) = true
  ↔ (q = "" ∨ is_substring_ci (normalised q) t).
Proof.
  unfold is_substring_ci, normalised.
  rewrite lower_idemp, <- strip_lower, <- contains_spec.
  destruct (PyStr.strip (PyStr.lower q)) as [|c q'] eqn:E; cbn [Py.truthy].
  - rewrite contains_empty. split; [by right | done].
  - split; [by right|]. intros [-> | H]; [discriminate E | exact H].
Qed.

Lemma keep_spec iq lq lo hi r n :
  employee_count r = Ok n →
  ((lo <=? n) && (n <=? hi)
   && (if Py.truthy (VStr (PyStr.strip (PyStr.lower iq)))
       then PyStr.contains (PyStr.strip (PyStr.lower iq))
                           (PyStr.lower (field_text r "industry"))
       else true)
   && (if Py.truthy (VStr (PyStr.strip (PyStr.lower lq)))
       then PyStr.contains (PyStr.strip (PyStr.lower lq))
                           (PyStr.lower (field_text r "location"))
       else true)) = true
  ↔ matches iq lq lo hi r.
Proof.
  intros Hn. unfold matches.
  rewrite !andb_true_iff, !query_test_spec, !Z.leb_le, Hn. split.
  - intros [[Hsize Hi] Hl]. eauto.
  - intros [(m & [= <-] & Hsize) [Hi Hl]]. done.
Qed.

(** The loop appends the matching records to [out], in their order. *)
Lemma filter_loop_filter iq lq lo hi items out :
  Forall has_count items →
  filter_loop (PyStr.strip (PyStr.lower iq)) (PyStr.strip (PyStr.lower lq))
              lo hi items out
  = Ok (out ++ filter (matches iq lq lo hi) items).
Proof.
  intros Hall. revert out.
  induction Hall as [|it rest [n Hn] _ IH]; intros out.
  - cbn. by rewrite app_nil_r.
  - rewrite filter_loop_cons. pose proof Hn as Hn'.
    unfold employee_count in Hn'. rewrite Hn'. cbn [mbind result_bind]. cbv zeta.
    pose proof (keep_spec iq lq lo hi it n Hn) as Hkeep.
    unfold field_text in Hkeep. rewrite IH, filter_cons.
    destruct (decide (matches iq lq lo hi it)) as [Hm|Hm].
    + apply Hkeep in Hm. rewrite Hm. by rewrite <- app_assoc.
    + destruct (_ && _ && _ && _) eqn:E; [|done].
      exfalso. apply Hm, Hkeep. done.
Qed.

Lemma filter_companies_filter items iq lq lo hi :
  Forall has_count items →
  filter_companies items iq lq lo hi = Ok (filter (matches iq lq lo hi) items).
Proof. intros H. unfold filter_companies. by rewrite filter_loop_filter. Qed.














(** C1: on records whose employee count is an integer (or anything [int]
    accepts, or absent), [filter_companies] returns the list-filter of the
    specification's matching rule over its input: the matching records, in
    input order, each as often as it occurs. *)
Theorem C1_filter_companies_is_list_filter items iq lq lo hi :
  Forall has_count items →
  filter_companies items iq lq lo hi = Ok (filter (matches iq lq lo hi) items).
Proof. apply filter_companies_filter. Qed.


(** C10: with [size_min > size_max] no employee count lies in the range,
    and the result is the empty list (on records whose employee count [int]
    accepts). *)
Theorem C10_inverted_range_is_empty items iq lq lo hi :
  lo > hi →
  Forall has_count items →
  filter_companies items iq lq lo hi = Ok [].
Proof.
  intros Hinv Hall. rewrite filter_companies_filter by done. f_equal.
  induction items as [|it rest IH]; [done|].
  apply Forall_cons in Hall as [_ Hrest].
  rewrite filter_cons_False; [by apply IH|].
  intros [(n & _ & Hn) _]. lia.
Qed.

(** ** The insight generator *)

Lemma or_else_str s : Py.or_else (VStr s) (VStr "") = VStr s.
Proof. by destruct s. Qed.

Lemma get_text_or_empty r k :
  str_or_absent r k → Py.or_else (Py.get r k) (VStr "") = VStr (text_of r k).
Proof.
  unfold str_or_absent, Py.get, text_of. intros H.
  destruct (r !! k) as [v|]; [|done].
  destruct (H v eq_refl) as [s ->]. apply or_else_str.
Qed.

Lemma get_count r :
  int_or_absent r "employeeCount" →
  Py.get_or r "employeeCount" (VInt 0) = VInt (count_of r).
Proof.
  unfold int_or_absent, Py.get_or, count_of. intros H.
  destruct (r !! "employeeCount") as [v|]; [|done].
  by destruct (H v eq_refl) as [n ->].
Qed.

(** On a record with fields of the expected types (or without them) the
    rules run in order and the list is cut after three entries. *)
Lemma add_insights_typed j :
  str_or_absent j "industry" →
  int_or_absent j "employeeCount" →
  str_or_absent j "location" →
  add_insights j = Ok (take 3 (insights_in_order j)).
Proof.
  intros Hi Hn Hl. unfold add_insights, insights_in_order.
  rewrite (get_text_or_empty _ _ Hi), (get_text_or_empty _ _ Hl), (get_count _ Hn).
  cbn [Py.call_lower Py.str_receiver fmap result_fmap mbind result_bind
       Py.int Py.as_subject].
  by rewrite app_nil_l, <- app_assoc.
Qed.

Lemma industry_bullets_length ind :
  (1 ≤ length (industry_bullets ind) ≤ 2)%nat.
Proof.
  unfold industry_bullets.
  repeat (destruct (PyStr.search_literal_i _ _)); cbn; lia.
Qed.

Lemma insights_in_order_nonempty j : (1 ≤ length (insights_in_order j))%nat.
Proof.
  unfold insights_in_order. rewrite length_app.
  pose proof (industry_bullets_length (PyStr.lower (text_of j "industry"))). lia.
Qed.

Lemma company_record_typed name web n ind loc :
  str_or_absent (company_record name web n ind loc) "industry"
  ∧ int_or_absent (company_record name web n ind loc) "employeeCount"
  ∧ str_or_absent (company_record name web n ind loc) "location".
Proof.
  unfold str_or_absent, int_or_absent, company_record.
  repeat split; intros v Hv; simplify_map_eq; eauto.
Qed.

(** C2: the industry rule comes first, then the size rule, then the
    location rule, and the result is the first three entries; for the
    Logistics record of 210 employees in "Hyderabad, IN" the four derived
    insights end with the India one, which the cut drops. *)
Theorem C2_add_insights_order_and_truncation :
  (∀ name web n ind loc,
     add_insights (company_record name web n ind loc)
     = Ok (take 3 (industry_bullets (PyStr.lower ind)
                   ++ size_bullets n ++ location_bullets loc)))
  ∧ insights_in_order (company_record "AeroLogix Systems"
                         "https://aerologix.example" 210 "Logistics"
                         "Hyderabad, IN")
    = ["Fleet optimization & real-time tracking";
       "Likely evaluating warehouse automation";
       "Mid-market team with scaling pains";
       "Operating in India with regional growth"]
  ∧ add_insights (company_record "AeroLogix Systems"
                    "https://aerologix.example" 210 "Logistics" "Hyderabad, IN")
    = Ok ["Fleet optimization & real-time tracking";
          "Likely evaluating warehouse automation";
          "Mid-market team with scaling pains"].
Proof.
  split; [|split; vm_compute; reflexivity].
  intros. destruct (company_record_typed name web n ind loc) as (Hi & Hn & Hl).
  rewrite add_insights_typed by done.
  unfold insights_in_order, text_of, count_of, company_record.
  by simplify_map_eq.
Qed.

(** C9: on every record whose industry and location are strings and whose
    employee count is an integer, each of them possibly missing,
    [add_insights] returns between one and three insights. *)
Theorem C9_add_insights_length j :
  str_or_absent j "industry" →
  int_or_absent j "employeeCount" →
  str_or_absent j "location" →
  ∃ l, add_insights j = Ok l ∧ (1 ≤ length l ≤ 3)%nat.
Proof.
  intros Hi Hn Hl. eexists. split; [by apply add_insights_typed|].
  rewrite length_take. pose proof (insights_in_order_nonempty j). lia.
Qed.

(** ** The template path *)

Lemma split_from_length cur s :
  length (PyStr.split_from cur s)
  = (token_starts (match cur with Some _ => false | None => true end) s
     + match cur with Some _ => 1 | None => 0 end)%nat.
Proof.
  revert cur. induction s as [|c r IH]; intros cur.
  - by destruct cur.
  - cbn [PyStr.split_from token_starts].
    destruct (PyStr.is_space c), cur; cbn [length negb andb]; rewrite ?IH;
      cbn; lia.
Qed.

(** [len(body.split())] counts the whitespace-delimited tokens. *)
Lemma split_length s : length (PyStr.split s) = whitespace_tokens s.
Proof. unfold PyStr.split, whitespace_tokens. rewrite split_from_length. lia. Qed.


Lemma get_lookup (d : dict) k v : d !! k = Some v → Py.get d k = v.
Proof. intros H. unfold Py.get. by rewrite H. Qed.

Lemma get_absent (d : dict) k : d !! k = None → Py.get d k = VNone.
Proof. intros H. unfold Py.get. by rewrite H. Qed.

(** The template result for a company whose industry is the string [s]. *)
Lemma template_returns company insights s :
  company !! "industry" = Some (VStr s) →
  generate_email_template company insights
  = Ok (<["wordCount" :=
            VInt (Z.of_nat (length (PyStr.split
                    (template_body company (PyStr.join "; " insights)))))]>
         (<["tone" := VStr "consultative"]>
           (<["body" := VStr (template_body company (PyStr.join "; " insights))]>
             (<["subject" := VStr (str (Py.get company "companyName")
                                   +:+ ": quick idea to accelerate "
                                   +:+ PyStr.lower s +:+ " goals")]>
               (<["company" := Py.get company "companyName"]> ∅))))).
Proof.
  intros H. unfold generate_email_template. by rewrite (get_lookup _ _ _ H).
Qed.

Lemma template_raises company insights :
  company !! "industry" = None →
  generate_email_template company insights
  = Raise (AttributeError "NoneType" "lower").
Proof.
  intros H. unfold generate_email_template. by rewrite (get_absent _ _ H).
Qed.

(** C4: for a company with a string industry the template returns a result
    that a second call with the same company and insights returns again,
    and whose [wordCount] is the number of whitespace-delimited tokens of
    its [body]. *)
Theorem C4_template_deterministic_word_count company insights s :
  company !! "industry" = Some (VStr s) →
  ∃ r body,
    generate_email_template company insights = Ok r
    ∧ (∀ company' insights', company' = company → insights' = insights →
         generate_email_template company' insights' = Ok r)
    ∧ r !! "body" = Some (VStr body)
    ∧ r !! "wordCount" = Some (VInt (Z.of_nat (whitespace_tokens body))).
Proof.
  intros H. rewrite (template_returns _ insights _ H).
  eexists _, _. split; [reflexivity|]. split; [|split].
  - intros ? ? -> ->. by apply template_returns.
  - by simplify_map_eq.
  - simplify_map_eq. by rewrite split_length.
Qed.

(** C8: with the industry present as a string the template returns a
    result without an [error] field; with the industry absent it raises
    ([None] has no [lower]). *)
Theorem C8_template_needs_industry :
  (∀ company insights s,
     company !! "industry" = Some (VStr s) →
     ∃ r, generate_email_template company insights = Ok r
          ∧ r !! "error" = None)
  ∧ (∀ company insights,
       company !! "industry" = None →
       generate_email_template company insights
       = Raise (AttributeError "NoneType" "lower")).
Proof.
  split.
  - intros company insights s H. rewrite (template_returns _ insights _ H).
    eexists. split; [reflexivity|]. by simplify_map_eq.
  - apply template_raises.
Qed.

(** ** The remote path *)

Lemma take_length n s : (String.length (PyStr.take n s) ≤ n)%nat.
Proof.
  revert s. induction n as [|n IH]; intros [|c r]; cbn; try lia.
  specialize (IH r). lia.
Qed.

Lemma take_prefix n s : PyStr.startswith (PyStr.take n s) s = true.
Proof.
  revert s. induction n as [|n IH]; intros [|c r]; cbn; try done.
  by rewrite Ascii.eqb_refl, IH.
Qed.

Lemma template_fallback_returns company insights s error :
  company !! "industry" = Some (VStr s) →
  ∃ t, generate_email_template company insights = Ok t
       ∧ template_fallback company insights error
         = Ok (<["error" := VStr error]> (<["source" := VStr "template"]> t)).
Proof.
  intros H. unfold template_fallback.
  rewrite (template_returns _ insights _ H). eauto.
Qed.

Lemma or_else_get obj k dflt :
  Py.or_else (Py.get_or obj k VNone) dflt = field_or_default obj k dflt.
Proof.
  unfold Py.or_else, Py.get_or, field_or_default.
  by destruct (obj !! k).
Qed.

(** The outer [try] block on an answer with content [content]. *)
Lemma read_response_content company insights resp data content :
  raise_for_status resp = Ok () →
  json resp = Ok data →
  message_content data = Ok (VStr content) →
  read_response company insights resp
  = match parse_result company (clean_content content) with
    | Ok result => Ok result
    | Raise parse_err =>
        template_fallback company insights
          ("ParseError: " +:+ str_exn parse_err +:+ "; content="
           +:+ PyStr.take 300 content +:+ "...")
    end.
Proof.
  intros Hs Hj Hc. unfold read_response. by rewrite Hs, Hj; cbn; rewrite Hc.
Qed.

Lemma groq_with_key key company insights :
  key ≠ "" →
  generate_email_with_groq (Some key) company insights
  = (match requests_post (build_request key company insights) with
     | Ok resp =>
         match read_response company insights resp with
         | Ok result => Ok result
         | Raise req_err =>
             template_fallback company insights
               ("RequestError: " +:+ str_exn req_err +:+ "; response="
                +:+ PyStr.take 300 (text resp))
         end
     | Raise req_err =>
         template_fallback company insights
           ("RequestError: " +:+ str_exn req_err +:+ "; response=" +:+ "")
     end, [build_request key company insights]).
Proof.
  intros Hk. unfold generate_email_with_groq.
  destruct key as [|c k]; [done|].
  destruct (requests_post _) as [resp|e]; [|done].
  by destruct (read_response _ _ _).
Qed.

(** C3: without a credential, and for a company with a string industry,
    the result is the template result for the same company and insights
    with [source] set to "template" and [error] to "Missing GROQ_API_KEY";
    no request is sent. *)
Theorem C3_missing_credential_falls_back key company insights s :
  no_credential key →
  company !! "industry" = Some (VStr s) →
  ∃ t r,
    generate_email_template company insights = Ok t
    ∧ generate_email_with_groq key company insights = (Ok r, [])
    ∧ r !! "source" = Some (VStr "template")
    ∧ r !! "error" = Some (VStr "Missing GROQ_API_KEY")
    ∧ r !! "subject" = t !! "subject"
    ∧ r !! "body" = t !! "body"
    ∧ r !! "tone" = t !! "tone"
    ∧ r !! "wordCount" = t !! "wordCount".
Proof.
  intros Hkey Hind.
  destruct (template_fallback_returns company insights s
              "Missing GROQ_API_KEY" Hind) as (t & Ht & Hfb).
  exists t, (<["error" := VStr "Missing GROQ_API_KEY"]>
              (<["source" := VStr "template"]> t)).
  split; [done|]. split.
  - unfold generate_email_with_groq. by destruct Hkey as [-> | ->]; rewrite Hfb.
  - repeat split; by simplify_map_eq.
Qed.

(** Without a credential and without an industry the fallback itself
    raises: the remote path inherits the template's precondition. *)
Lemma missing_credential_without_industry key company insights :
  no_credential key →
  company !! "industry" = None →
  generate_email_with_groq key company insights
  = (Raise (AttributeError "NoneType" "lower"), []).
Proof.
  intros Hkey Hind. unfold generate_email_with_groq, template_fallback.
  rewrite (template_raises _ insights Hind). by destruct Hkey as [-> | ->].
Qed.

(** C6: when the answer's content, once cleaned, is rejected by
    [json.loads] with the exception [e], and the company has a string
    industry, the result is the template result for the same company and
    insights with [source] "template" and an [error] made of
    "ParseError: ", the text of [e], "; content=", the first 300 characters
    of the raw content at most, and "...". *)
Theorem C6_unparsable_content_falls_back key company insights s content e :
  answered_with key company insights content →
  json_loads (clean_content content) = Raise e →
  company !! "industry" = Some (VStr s) →
  ∃ t r err,
    generate_email_template company insights = Ok t
    ∧ generate_email_with_groq (Some key) company insights
      = (Ok r, [build_request key company insights])
    ∧ r = <["error" := VStr err]> (<["source" := VStr "template"]> t)
    ∧ r !! "source" = Some (VStr "template")
    ∧ r !! "error" = Some (VStr err)
    ∧ err = "ParseError: " +:+ str_exn e +:+ "; content="
            +:+ PyStr.take 300 content +:+ "..."
    ∧ err ≠ ""
    ∧ PyStr.startswith "ParseError: " err = true
    ∧ (String.length (PyStr.take 300 content) ≤ 300)%nat
    ∧ PyStr.startswith (PyStr.take 300 content) content = true.
Proof.
  intros (Hk & resp & data & Hpost & Hs & Hj & Hc) Hparse Hind.
  set (err := "ParseError: " +:+ str_exn e +:+ "; content="
              +:+ PyStr.take 300 content +:+ "...").
  destruct (template_fallback_returns company insights s err Hind)
    as (t & Ht & Hfb).
  exists t, (<["error" := VStr err]> (<["source" := VStr "template"]> t)), err.
  split; [done|]. split.
  - rewrite groq_with_key, Hpost by done.
    rewrite (read_response_content _ _ _ _ _ Hs Hj Hc).
    unfold parse_result. rewrite Hparse. cbn [mbind result_bind].
    fold err. by rewrite Hfb.
  - repeat split; try done.
    + by simplify_map_eq.
    + by simplify_map_eq.
    + apply take_length.
    + apply take_prefix.
Qed.

(** A content that parses as a JSON object gives the model's result, with
    the defaults for the fields the object lacks or holds falsy. *)
Lemma parsed_object_result key company insights content obj :
  answered_with key company insights content →
  json_loads (clean_content content) = Ok (VDict obj) →
  ∃ r,
    generate_email_with_groq (Some key) company insights
    = (Ok r, [build_request key company insights])
    ∧ r !! "source" = Some (VStr "groq")
    ∧ r !! "error" = None
    ∧ r !! "company"
      = Some (field_or_default obj "company" (Py.get company "companyName"))
    ∧ r !! "subject"
      = Some (field_or_default obj "subject"
                               (VStr "Exploring a tailored approach"))
    ∧ r !! "body" = Some (field_or_default obj "body" (VStr ""))
    ∧ r !! "tone" = Some (field_or_default obj "tone" (VStr "consultative"))
    ∧ r !! "wordCount" = Some (field_or_default obj "wordCount" VNone).
Proof.
  intros (Hk & resp & data & Hpost & Hs & Hj & Hc) Hparse.
  eexists. split.
  - rewrite groq_with_key, Hpost by done.
    rewrite (read_response_content _ _ _ _ _ Hs Hj Hc).
    unfold parse_result. rewrite Hparse.
    cbn [mbind result_bind Py.call_get]. rewrite !or_else_get. reflexivity.
  - by simplify_map_eq.
Qed.

(** A content that parses as JSON but not as an object has no [get]: the
    inner handler turns the [AttributeError] into the template fallback. *)
Lemma parsed_non_object_result key company insights content v s :
  answered_with key company insights content →
  json_loads (clean_content content) = Ok v →
  (∀ obj, v ≠ VDict obj) →
  company !! "industry" = Some (VStr s) →
  ∃ t r err,
    generate_email_template company insights = Ok t
    ∧ generate_email_with_groq (Some key) company insights
      = (Ok r, [build_request key company insights])
    ∧ r = <["error" := VStr err]> (<["source" := VStr "template"]> t)
    ∧ r !! "source" = Some (VStr "template")
    ∧ r !! "error" = Some (VStr err)
    ∧ err = "ParseError: "
            +:+ str_exn (AttributeError (Py.type_name v) "get")
            +:+ "; content=" +:+ PyStr.take 300 content +:+ "...".
Proof.
  intros (Hk & resp & data & Hpost & Hs & Hj & Hc) Hparse Hv Hind.
  set (err := "ParseError: "
              +:+ str_exn (AttributeError (Py.type_name v) "get")
              +:+ "; content=" +:+ PyStr.take 300 content +:+ "...").
  destruct (template_fallback_returns company insights s err Hind)
    as (t & Ht & Hfb).
  exists t, (<["error" := VStr err]> (<["source" := VStr "template"]> t)), err.
  split; [done|]. split.
  - rewrite groq_with_key, Hpost by done.
    rewrite (read_response_content _ _ _ _ _ Hs Hj Hc).
    assert (parse_result company (clean_content content)
            = Raise (AttributeError (Py.type_name v) "get")) as ->.
    { unfold parse_result. rewrite Hparse. cbn [mbind result_bind].
      destruct v as [|b|n|c|l|d]; try done. by destruct (Hv d). }
    fold err. by rewrite Hfb.
  - repeat split; try done; by simplify_map_eq.
Qed.

(** C7, as amended: when the answer's content, once cleaned, parses as a
    JSON object, the result has [source] "groq", no [error] field, and each
    other field is the object's, or its default where the object lacks it or
    holds a falsy value: the input company's name, "Exploring a tailored
    approach", the empty string, "consultative", and [None].  When it
    parses as another JSON value (an array, a string, a number, a boolean,
    null), the result is, for a company with a string industry, the template
    result with [source] "template" and the [error] "ParseError: " followed
    by the text of the [AttributeError] on [get], "; content=", the first
    300 characters of the raw content at most, and "...". *)
Theorem C7_parsed_content_result key company insights content v :
  answered_with key company insights content →
  json_loads (clean_content content) = Ok v →
  (∀ obj, v = VDict obj →
     ∃ r,
       generate_email_with_groq (Some key) company insights
       = (Ok r, [build_request key company insights])
       ∧ r !! "source" = Some (VStr "groq")
       ∧ r !! "error" = None
       ∧ r !! "company"
         = Some (field_or_default obj "company" (Py.get company "companyName"))
       ∧ r !! "subject"
         = Some (field_or_default obj "subject"
                                  (VStr "Exploring a tailored approach"))
       ∧ r !! "body" = Some (field_or_default obj "body" (VStr ""))
       ∧ r !! "tone" = Some (field_or_default obj "tone" (VStr "consultative"))
       ∧ r !! "wordCount" = Some (field_or_default obj "wordCount" VNone))
  ∧ ((∀ obj, v ≠ VDict obj) →
     ∀ s, company !! "industry" = Some (VStr s) →
     ∃ t r err,
       generate_email_template company insights = Ok t
       ∧ generate_email_with_groq (Some key) company insights
         = (Ok r, [build_request key company insights])
       ∧ r = <["error" := VStr err]> (<["source" := VStr "template"]> t)
       ∧ r !! "source" = Some (VStr "template")
       ∧ r !! "error" = Some (VStr err)
       ∧ err = "ParseError: "
               +:+ str_exn (AttributeError (Py.type_name v) "get")
               +:+ "; content=" +:+ PyStr.take 300 content +:+ "..."
       ∧ (String.length (PyStr.take 300 content) ≤ 300)%nat).
Proof.
  intros Hans Hparse. split.
  - intros obj ->. by apply (parsed_object_result key company insights content).
  - intros Hv s Hind.
    destruct (parsed_non_object_result key company insights content v s
                Hans Hparse Hv Hind)
      as (t & r & err & Ht & Hr & Hrt & Hsrc & Herr & Htext).
    exists t, r, err. repeat split; try done. apply take_length.
Qed.

(** ** Further properties of the filter engine *)

(** Two queries that agree once trimmed and lower-cased select the same
    records; a blank query is the empty query. *)
Theorem filter_companies_query_normal_form items iq iq' lq lq' lo hi :
  normalised iq = normalised iq' →
  normalised lq = normalised lq' →
  filter_companies items iq lq lo hi = filter_companies items iq' lq' lo hi.
Proof.
  intros Hi Hl. unfold filter_companies, normalised in *.
  by rewrite !strip_lower, Hi, Hl.
Qed.

Lemma filter_loop_out iq lq lo hi items out :
  filter_loop iq lq lo hi items out
  = (res ← filter_loop iq lq lo hi items []; Ok (out ++ res)).
Proof.
  revert out. induction items as [|it rest IH]; intros out.
  - cbn. by rewrite app_nil_r.
  - rewrite !filter_loop_cons.
    destruct (Py.int _) as [n|e]; cbn [mbind result_bind]; cbv zeta; [|done].
    destruct (_ && _ && _).
    + rewrite (IH (out ++ [it])), (IH ([] ++ [it])).
      destruct (filter_loop iq lq lo hi rest []) as [res|e];
        cbn [mbind result_bind]; [|done].
      by rewrite app_nil_l, app_assoc.
    + rewrite (IH out).
      by destruct (filter_loop iq lq lo hi rest []).
Qed.

Lemma filter_loop_app iq lq lo hi items1 items2 out :
  filter_loop iq lq lo hi (items1 ++ items2) out
  = (out1 ← filter_loop iq lq lo hi items1 out;
     filter_loop iq lq lo hi items2 out1).
Proof.
  revert out. induction items1 as [|it rest IH]; intros out; [done|].
  rewrite <- app_comm_cons, !filter_loop_cons.
  destruct (Py.int _) as [n|e]; cbn [mbind result_bind]; cbv zeta; [|done].
  apply IH.
Qed.

(** Filtering a concatenation is filtering its parts, the first error
    winning. *)
Theorem filter_companies_app items1 items2 iq lq lo hi :
  filter_companies (items1 ++ items2) iq lq lo hi
  = (out1 ← filter_companies items1 iq lq lo hi;
     out2 ← filter_companies items2 iq lq lo hi;
     Ok (out1 ++ out2)).
Proof.
  unfold filter_companies. cbv zeta. rewrite filter_loop_app.
  destruct (filter_loop _ _ lo hi items1 []) as [out1|e];
    cbn [mbind result_bind]; [|done].
  apply filter_loop_out.
Qed.

Lemma has_count_filter P `{!∀ r, Decision (P r)} (items : list dict) :
  Forall has_count items → Forall has_count (filter P items).
Proof.
  intros Hall. apply Forall_forall. intros r Hr.
  apply list_elem_of_filter in Hr as [_ Hr]. by eapply Forall_forall in Hall.
Qed.

(** Filtering a filtered list again, with the same queries and a second
    range, is filtering once with the intersection of the two ranges; with
    the same range it changes nothing. *)
Theorem filter_companies_twice items iq lq lo1 hi1 lo2 hi2 :
  Forall has_count items →
  ∃ out,
    filter_companies items iq lq lo1 hi1 = Ok out
    ∧ filter_companies out iq lq lo2 hi2
      = filter_companies items iq lq (Z.max lo1 lo2) (Z.min hi1 hi2)
    ∧ filter_companies out iq lq lo1 hi1 = Ok out.
Proof.
  intros Hall. eexists. split; [by apply filter_companies_filter|].
  pose proof (has_count_filter (matches iq lq lo1 hi1) items Hall) as Hout.
  rewrite !filter_companies_filter by done. split; f_equal.
  - rewrite list_filter_filter. apply list_filter_iff. intros r.
    unfold matches. split.
    + intros [((n & Hn & ?) & Hi & Hl) ((m & Hm & ?) & _)].
      rewrite Hn in Hm. injection Hm as <-.
      split; [exists n; split; [done | lia] | done].
    + intros ((n & Hn & ?) & Hi & Hl).
      split; (split; [exists n; split; [done | lia] | done]).
  - rewrite list_filter_filter. apply list_filter_iff. intros r.
    split; [by intros [Hm _] | by intros Hm].
Qed.

(** A record without an [industry] key passes the industry test only for a
    blank query. *)
Theorem filter_companies_missing_industry items iq lq lo hi :
  Forall has_count items →
  ∃ out,
    filter_companies items iq lq lo hi = Ok out
    ∧ ∀ r, r ∈ out → r !! "industry" = None → normalised iq = "".
Proof.
  intros Hall. eexists. split; [by apply filter_companies_filter|].
  intros r Hr Hnone. apply list_elem_of_filter in Hr as [(_ & Hi & _) _].
  destruct Hi as [-> | (pre & suf & Hsub)]; [done|].
  unfold field_text, Py.get_or in Hsub. rewrite Hnone in Hsub. cbn in Hsub.
  unfold normalised in Hsub |- *. rewrite lower_idemp in Hsub.
  destruct pre; [|discriminate Hsub]. cbn in Hsub.
  destruct (PyStr.lower (PyStr.strip iq)); [done | discriminate Hsub].
Qed.

(** ** Further properties of the insight generator *)

Lemma str_receiver_or_else attr v :
  (∃ s, Py.str_receiver attr (Py.or_else v (VStr "")) = Ok s) ↔ falsy_or_str v.
Proof.
  clear. unfold falsy_or_str, Py.or_else.
  destruct (Py.truthy v) eqn:Ht.
  - split.
    + intros [s Hs]. right. destruct v; try discriminate Hs. eauto.
    + intros [[=] | [s ->]]. cbn. eauto.
  - split; [by left | cbn; eauto].
Qed.

(** [add_insights] returns exactly when the industry and the location are
    strings or falsy (absent, [None], empty, zero) and [int] accepts the
    employee count; otherwise it raises. *)
Theorem add_insights_returns_iff j :
  (∃ l, add_insights j = Ok l)
  ↔ falsy_or_str (Py.get j "industry")
    ∧ has_count j
    ∧ falsy_or_str (Py.get j "location").
Proof.
  clear. rewrite <- !(str_receiver_or_else "lower").
  unfold add_insights, Py.call_lower, has_count, employee_count.
  destruct (Py.str_receiver "lower" (Py.or_else (Py.get j "industry") _))
    as [ind|e]; cbn [fmap result_fmap mbind result_bind].
  2: { split; [intros [l [=]] | intros [[s [=]] _]]. }
  destruct (Py.int _) as [n|e]; cbn [mbind result_bind].
  2: { split; [intros [l [=]] | intros (_ & [m [=]] & _)]. }
  destruct (Py.or_else (Py.get j "location") (VStr ""))
    as [|vb|vn|loc|vl|vd];
    cbn [Py.as_subject Py.str_receiver mbind result_bind Py.type_name];
    (split; [intros [l Hl]; try discriminate Hl; eauto 6
            | intros (_ & _ & [s Hs]); try discriminate Hs; eauto]).
Qed.

Lemma search_literal_lower p ind :
  PyStr.search_literal_i p (PyStr.lower ind) = true ↔ is_substring_ci p ind.
Proof.
  unfold PyStr.search_literal_i, is_substring_ci.
  by rewrite lower_idemp, contains_spec.
Qed.



(** For a company of more than 150 employees in a known industry the three
    places are taken by the two industry insights and the size insight:
    the location never shows in the result. *)
Theorem add_insights_large_known_industry j :
  str_or_absent j "industry" →
  int_or_absent j "employeeCount" →
  str_or_absent j "location" →
  150 < count_of j →
  known_industry j →
  add_insights j
  = Ok (industry_bullets (PyStr.lower (text_of j "industry"))
        ++ ["Mid-market team with scaling pains"])
  ∧ ∀ l, add_insights j = Ok l →
         "Operating in India with regional growth" ∉ l.
Proof.
  intros Hi Hn Hl Hbig Hknown. rewrite add_insights_typed by done.
  assert (add_insights_shape :
    take 3 (insights_in_order j)
    = industry_bullets (PyStr.lower (text_of j "industry"))
      ++ ["Mid-market team with scaling pains"]).
  { unfold insights_in_order, size_bullets.
    apply Z.ltb_lt in Hbig. rewrite Hbig.
    unfold industry_bullets, known_industry in *.
    destruct (PyStr.search_literal_i "software" _) eqn:E1; [done|].
    destruct (PyStr.search_literal_i "manufact" _) eqn:E2; [done|].
    destruct (PyStr.search_literal_i "logistic" _) eqn:E3; [done|].
    exfalso. destruct Hknown as [H | [H | H]];
      apply search_literal_lower in H; congruence. }
  rewrite add_insights_shape. split; [done|].
  intros l [= <-]. unfold industry_bullets.
  repeat (destruct (PyStr.search_literal_i _ _));
    intros Hin; repeat (apply elem_of_cons in Hin as [Hin | Hin];
                        [discriminate Hin|]);
    by apply elem_of_nil in Hin.
Qed.

(** ** The location rule *)

Lemma search_from_unfold prev s :
  PyStr.search_in_or_india_from prev s
  = PyStr.in_or_india_at prev s
    || match s with
       | EmptyString => false
       | String c r => PyStr.search_in_or_india_from (Some c) r
       end.
Proof. by destruct s. Qed.

Lemma is_word_lower_char c : PyStr.is_word (PyStr.lower_char c) = PyStr.is_word c.
Proof. ascii_cases c. Qed.

Lemma lower_char_i_word c : PyStr.lower_char c = "i"%char → PyStr.is_word c = true.
Proof.
  destruct c as [[|] [|] [|] [|] [|] [|] [|] [|]];
    intros H; try reflexivity; discriminate H.
Qed.

Lemma search_from_india prev s :
  PyStr.contains "india" (PyStr.lower s) = true →
  PyStr.search_in_or_india_from prev s = true.
Proof.
  clear. revert prev. induction s as [|c r IH]; intros prev H.
  - vm_compute in H. discriminate H.
  - rewrite search_from_unfold. rewrite contains_unfold in H.
    apply orb_true_iff in H as [H | H].
    + apply orb_true_iff. left. unfold PyStr.in_or_india_at.
      rewrite H. cbn [PyStr.lower] in H |- *.
      destruct (PyStr.lower r) as [|n rest]; [|apply orb_true_r].
      cbn in H. rewrite andb_false_r in H. discriminate H.
    + cbn [PyStr.lower] in H. rewrite (IH (Some c) H). apply orb_true_r.
Qed.

Lemma in_or_india_at_needs_in prev s :
  PyStr.in_or_india_at prev s = true →
  PyStr.startswith "in" (PyStr.lower s) = true.
Proof.
  clear. unfold PyStr.in_or_india_at.
  destruct (PyStr.lower s) as [|i [|n rest]]; try discriminate.
  intros H. apply orb_true_iff in H as [H | H].
  - rewrite !andb_true_iff in H. destruct H as [[[_ Hi] Hn] _].
    apply Ascii.eqb_eq in Hi, Hn. by subst.
  - cbn in H |- *. rewrite !andb_true_iff in H.
    destruct H as (-> & -> & _). done.
Qed.

Lemma search_from_needs_in prev s :
  PyStr.search_in_or_india_from prev s = true →
  PyStr.contains "in" (PyStr.lower s) = true.
Proof.
  clear. revert prev. induction s as [|c r IH]; intros prev H;
    rewrite search_from_unfold in H; apply orb_true_iff in H as [H | H];
    try discriminate H; rewrite contains_unfold; apply orb_true_iff.
  - left. by eapply in_or_india_at_needs_in.
  - right. cbn [PyStr.lower]. by eapply IH.
Qed.

Lemma append_cons c a b : String c a +:+ b = String c (a +:+ b).
Proof. reflexivity. Qed.

Lemma search_from_skip prev pre s :
  PyStr.search_in_or_india_from (last_or prev pre) s = true →
  PyStr.search_in_or_india_from prev (pre +:+ s) = true.
Proof.
  clear. revert prev. induction pre as [|c pre IH]; intros prev H; [done|].
  rewrite append_cons, search_from_unfold.
  rewrite (IH (Some c)) by done. apply orb_true_r.
Qed.

(** On ASCII text, where the matcher is the regex of the source: the
    location rule fires on every location that contains "india" in any
    letter case, and on every location that holds the letters "in", in any
    case, as a word of their own; it fires on no location without the
    letters "in". *)
Theorem location_rule_ascii_bounds :
  (∀ loc, ascii_text loc →
          is_substring_ci "india" loc →
          location_bullets loc = ["Operating in India with regional growth"])
  ∧ (∀ pre tok suf,
       ascii_text (pre +:+ tok +:+ suf) →
       PyStr.lower tok = "in" →
       PyStr.is_word_at (last_or None pre) = false →
       PyStr.is_word_at (PyStr.head suf) = false →
       location_bullets (pre +:+ tok +:+ suf)
       = ["Operating in India with regional growth"])
  ∧ (∀ loc, ascii_text loc →
            ¬ is_substring_ci "in" loc → location_bullets loc = []).
Proof.
  clear. unfold location_bullets, PyStr.search_in_or_india. repeat split.
  - intros loc _ H. apply contains_spec in H.
    by rewrite search_from_india.
  - intros pre tok suf _ Htok Hpre Hsuf.
    rewrite search_from_skip; [done|].
    destruct tok as [|a [|b [|]]]; try discriminate Htok.
    cbn in Htok. injection Htok as Ha Hb.
    rewrite search_from_unfold. apply orb_true_iff. left.
    unfold PyStr.in_or_india_at. rewrite !append_cons.
    cbn [PyStr.lower PyStr.head]. change (EmptyString +:+ suf) with suf.
    rewrite Ha, Hb. apply orb_true_iff. left.
    unfold PyStr.word_boundary. rewrite Hpre.
    cbn [PyStr.is_word_at xorb]. rewrite (lower_char_i_word a Ha).
    destruct suf as [|d suf]; [done|].
    cbn [PyStr.lower PyStr.head PyStr.is_word_at] in Hsuf |- *.
    by rewrite is_word_lower_char, Hsuf.
  - intros loc _ H.
    destruct (PyStr.search_in_or_india_from None loc) eqn:E; [|done].
    exfalso. apply H. apply contains_spec. by eapply search_from_needs_in.
Qed.

(** ** Further properties of the remote path *)

Lemma template_fallback_raises company insights error :
  company !! "industry" = None →
  template_fallback company insights error
  = Raise (AttributeError "NoneType" "lower").
Proof.
  intros H. unfold template_fallback. by rewrite (template_raises _ insights H).
Qed.

Lemma fallback_lookups (t : dict) error :
  (<["error" := VStr error]> (<["source" := VStr "template"]> t)) !! "source"
  = Some (VStr "template")
  ∧ (<["error" := VStr error]> (<["source" := VStr "template"]> t)) !! "error"
    = Some (VStr error).
Proof. clear. split; by simplify_map_eq. Qed.

Lemma parse_result_groq company cleaned r :
  parse_result company cleaned = Ok r →
  r !! "source" = Some (VStr "groq") ∧ r !! "error" = None.
Proof.
  clear requests_post str_exn. unfold parse_result.
  destruct (json_loads cleaned) as [obj|e]; cbn [mbind result_bind]; [|done].
  destruct obj; cbn [Py.call_get mbind result_bind]; try done.
  intros [= <-]. split; by simplify_map_eq.
Qed.

(** The requests [requests.post] raises on: the error names the exception
    and shows no response text. *)
Theorem request_exception_falls_back key company insights s e :
  key ≠ "" →
  requests_post (build_request key company insights) = Raise e →
  company !! "industry" = Some (VStr s) →
  ∃ t,
    generate_email_template company insights = Ok t
    ∧ generate_email_with_groq (Some key) company insights
      = (Ok (<["error" := VStr ("RequestError: " +:+ str_exn e
                                +:+ "; response=")]>
              (<["source" := VStr "template"]> t)),
         [build_request key company insights]).
Proof.
  intros Hk Hpost Hind.
  destruct (template_fallback_returns company insights s
              ("RequestError: " +:+ str_exn e +:+ "; response=" +:+ "") Hind)
    as (t & Ht & Hfb).
  exists t. split; [done|]. by rewrite groq_with_key, Hpost, Hfb.
Qed.

(** An error status, or a response body that is not JSON: the error names
    the exception and shows the first 300 characters of the response text
    at most. *)
Theorem http_failure_falls_back key company insights s resp e :
  key ≠ "" →
  requests_post (build_request key company insights) = Ok resp →
  raise_for_status resp = Raise e
  ∨ (raise_for_status resp = Ok () ∧ json resp = Raise e) →
  company !! "industry" = Some (VStr s) →
  ∃ t,
    generate_email_template company insights = Ok t
    ∧ generate_email_with_groq (Some key) company insights
      = (Ok (<["error" := VStr ("RequestError: " +:+ str_exn e
                                +:+ "; response="
                                +:+ PyStr.take 300 (text resp))]>
              (<["source" := VStr "template"]> t)),
         [build_request key company insights])
    ∧ (String.length (PyStr.take 300 (text resp)) ≤ 300)%nat.
Proof.
  intros Hk Hpost Hfail Hind.
  destruct (template_fallback_returns company insights s
              ("RequestError: " +:+ str_exn e +:+ "; response="
               +:+ PyStr.take 300 (text resp)) Hind)
    as (t & Ht & Hfb).
  exists t. split; [done|]. split; [|apply take_length].
  rewrite groq_with_key, Hpost by done.
  assert (read_response company insights resp = Raise e) as ->; [|by rewrite Hfb].
  unfold read_response.
  by destruct Hfail as [-> | [-> ->]].
Qed.

(** A content that is not a string ([null], a number, a list): the failure
    is reported as a request error on the missing [strip]. *)
Theorem non_string_content_falls_back key company insights s resp data v :
  key ≠ "" →
  requests_post (build_request key company insights) = Ok resp →
  raise_for_status resp = Ok () →
  json resp = Ok data →
  message_content data = Ok v →
  (∀ c, v ≠ VStr c) →
  company !! "industry" = Some (VStr s) →
  ∃ t,
    generate_email_template company insights = Ok t
    ∧ generate_email_with_groq (Some key) company insights
      = (Ok (<["error" :=
                 VStr ("RequestError: "
                       +:+ str_exn (AttributeError (Py.type_name v) "strip")
                       +:+ "; response=" +:+ PyStr.take 300 (text resp))]>
              (<["source" := VStr "template"]> t)),
         [build_request key company insights]).
Proof.
  intros Hk Hpost Hs Hj Hc Hv Hind.
  destruct (template_fallback_returns company insights s
              ("RequestError: "
               +:+ str_exn (AttributeError (Py.type_name v) "strip")
               +:+ "; response=" +:+ PyStr.take 300 (text resp)) Hind)
    as (t & Ht & Hfb).
  exists t. split; [done|].
  rewrite groq_with_key, Hpost by done.
  assert (read_response company insights resp
          = Raise (AttributeError (Py.type_name v) "strip")) as ->;
    [|by rewrite Hfb].
  unfold read_response. rewrite Hs, Hj. cbn [mbind result_bind]. rewrite Hc.
  cbn [mbind result_bind].
  destruct v as [| | |c| |]; try done. by destruct (Hv c).
Qed.

(** The chain of defaults behind the content: a response object without
    choices, a first choice without message and a message without content
    all give the empty content; a response that is no object has no [get]. *)
Theorem message_content_cases :
  (∀ d, Py.truthy (Py.get d "choices") = false →
        message_content (VDict d) = Ok (VStr ""))
  ∧ (∀ d ch rest,
       d !! "choices" = Some (VList (VDict ch :: rest)) →
       ch !! "message" = None →
       message_content (VDict d) = Ok (VStr ""))
  ∧ (∀ d ch rest m,
       d !! "choices" = Some (VList (VDict ch :: rest)) →
       ch !! "message" = Some (VDict m) →
       message_content (VDict d) = Ok (Py.get_or m "content" (VStr "")))
  ∧ (∀ data, (∀ d, data ≠ VDict d) →
             message_content data
             = Raise (AttributeError (Py.type_name data) "get")).
Proof.
  clear. unfold message_content. repeat split.
  - intros d Hd. cbn [Py.call_get mbind result_bind].
    change (Py.get_or d "choices" VNone) with (Py.get d "choices").
    unfold Py.or_else. by rewrite Hd.
  - intros d ch rest Hd Hm. cbn [Py.call_get mbind result_bind].
    unfold Py.get_or at 1. rewrite Hd. cbn. unfold Py.get_or at 1.
    by rewrite Hm.
  - intros d ch rest m Hd Hm. cbn [Py.call_get mbind result_bind].
    unfold Py.get_or at 1. rewrite Hd. cbn. unfold Py.get_or at 1.
    by rewrite Hm.
  - intros data Hd. destruct data as [| | | | |d]; try done. by destruct (Hd d).
Qed.

Lemma read_response_cases company insights s resp r :
  company !! "industry" = Some (VStr s) →
  read_response company insights resp = Ok r →
  (r !! "source" = Some (VStr "groq") ∧ r !! "error" = None)
  ∨ ∃ err, r !! "source" = Some (VStr "template")
           ∧ r !! "error" = Some (VStr err)
           ∧ PyStr.startswith "ParseError: " err = true.
Proof.
  clear requests_post. intros Hind. unfold read_response.
  destruct (raise_for_status resp) as [[]|e]; cbn [mbind result_bind]; [|done].
  destruct (json resp) as [data|e]; cbn [mbind result_bind]; [|done].
  destruct (message_content data) as [v|e]; cbn [mbind result_bind]; [|done].
  destruct (Py.str_receiver "strip" v) as [content|e];
    cbn [mbind result_bind]; [|done].
  destruct (parse_result company (clean_content content)) as [res|e] eqn:E.
  - intros [= <-]. left. by eapply parse_result_groq.
  - destruct (template_fallback_returns company insights s
                ("ParseError: " +:+ str_exn e +:+ "; content="
                 +:+ PyStr.take 300 content +:+ "...") Hind)
      as (t & _ & ->).
    intros [= <-]. right. eexists. split; [apply fallback_lookups|].
    split; [apply fallback_lookups | reflexivity].
Qed.

Lemma email_path_returns key company insights s :
  company !! "industry" = Some (VStr s) →
  ∃ r reqs,
    generate_email_with_groq key company insights = (Ok r, reqs)
    ∧ (length reqs ≤ 1)%nat
    ∧ ((r !! "source" = Some (VStr "groq") ∧ r !! "error" = None)
       ∨ ∃ err,
           r !! "source" = Some (VStr "template")
           ∧ r !! "error" = Some (VStr err)
           ∧ (err = "Missing GROQ_API_KEY"
              ∨ PyStr.startswith "ParseError: " err = true
              ∨ PyStr.startswith "RequestError: " err = true)).
Proof.
  intros Hind.
  assert (∀ err, ∃ t, template_fallback company insights err
                      = Ok (<["error" := VStr err]>
                              (<["source" := VStr "template"]> t))) as Hfb.
  { intros err.
    destruct (template_fallback_returns company insights s err Hind)
      as (t & _ & H). eauto. }
  assert (∀ k, k = None ∨ k = Some "" →
            ∃ r reqs, generate_email_with_groq k company insights = (Ok r, reqs)
              ∧ (length reqs ≤ 1)%nat
              ∧ ((r !! "source" = Some (VStr "groq") ∧ r !! "error" = None)
                 ∨ ∃ err, r !! "source" = Some (VStr "template")
                     ∧ r !! "error" = Some (VStr err)
                     ∧ (err = "Missing GROQ_API_KEY"
                        ∨ PyStr.startswith "ParseError: " err = true
                        ∨ PyStr.startswith "RequestError: " err = true)))
    as Hnokey.
  { intros k Hk. destruct (Hfb "Missing GROQ_API_KEY") as [t Ht].
    eexists _, []. split.
    - unfold generate_email_with_groq. by destruct Hk as [-> | ->]; rewrite Ht.
    - split; [cbn; lia|]. right. eexists.
      split; [apply fallback_lookups|]. split; [apply fallback_lookups|].
      by left. }
  destruct key as [[|c0 k]|]; [by apply Hnokey; right | | by apply Hnokey; left].
  rewrite groq_with_key by done.
  destruct (requests_post _) as [resp|e].
  - destruct (read_response company insights resp) as [r|e] eqn:E.
    + eexists _, _. split; [reflexivity|]. split; [cbn; lia|].
      destruct (read_response_cases _ _ _ _ _ Hind E)
        as [H | (err & H1 & H2 & H3)]; [by left|].
      right. exists err. eauto.
    + destruct (Hfb ("RequestError: " +:+ str_exn e +:+ "; response="
                     +:+ PyStr.take 300 (text resp))) as [t ->].
      eexists _, _. split; [reflexivity|]. split; [cbn; lia|].
      right. eexists. split; [apply fallback_lookups|].
      split; [apply fallback_lookups|]. by right; right.
  - destruct (Hfb ("RequestError: " +:+ str_exn e +:+ "; response=" +:+ ""))
      as [t ->].
    eexists _, _. split; [reflexivity|]. split; [cbn; lia|].
    right. eexists. split; [apply fallback_lookups|].
    split; [apply fallback_lookups|]. by right; right.
Qed.

(** For a company with a string industry the email path never raises,
    whatever the credential and whatever the endpoint does: it returns a
    result after one request at most, either from the model ([source]
    "groq", no [error]) or from the template ([source] "template" and an
    [error] that is the missing-credential notice or opens with
    "ParseError: " or "RequestError: "). *)
Theorem generate_email_with_groq_returns key company insights s :
  company !! "industry" = Some (VStr s) →
  ∃ r reqs,
    generate_email_with_groq key company insights = (Ok r, reqs)
    ∧ (length reqs ≤ 1)%nat
    ∧ ((r !! "source" = Some (VStr "groq") ∧ r !! "error" = None)
       ∨ ∃ err,
           r !! "source" = Some (VStr "template")
           ∧ r !! "error" = Some (VStr err)
           ∧ (err = "Missing GROQ_API_KEY"
              ∨ PyStr.startswith "ParseError: " err = true
              ∨ PyStr.startswith "RequestError: " err = true)).
Proof. apply email_path_returns. Qed.

Lemma read_response_without_industry company insights resp :
  company !! "industry" = None →
  (∃ r, read_response company insights resp = Ok r
        ∧ r !! "source" = Some (VStr "groq"))
  ∨ ∃ e, read_response company insights resp = Raise e.
Proof.
  clear requests_post. intros Hind. unfold read_response.
  destruct (raise_for_status resp) as [[]|e]; cbn [mbind result_bind]; [|eauto].
  destruct (json resp) as [data|e]; cbn [mbind result_bind]; [|eauto].
  destruct (message_content data) as [v|e]; cbn [mbind result_bind]; [|eauto].
  destruct (Py.str_receiver "strip" v) as [content|e];
    cbn [mbind result_bind]; [|eauto].
  destruct (parse_result company (clean_content content)) as [res|e] eqn:E.
  - left. exists res. split; [done|]. by eapply parse_result_groq.
  - right. rewrite template_fallback_raises by done. eauto.
Qed.

(** For a company without an [industry] key no fallback is possible: the
    email path either returns the model's result or raises the template's
    [AttributeError]; it never returns a template result. *)
Theorem generate_email_with_groq_without_industry key company insights :
  company !! "industry" = None →
  (∃ r reqs, generate_email_with_groq key company insights = (Ok r, reqs)
             ∧ r !! "source" = Some (VStr "groq"))
  ∨ ∃ reqs, generate_email_with_groq key company insights
            = (Raise (AttributeError "NoneType" "lower"), reqs).
Proof.
  intros Hind.
  destruct key as [[|c0 k]|].
  - right. exists []. unfold generate_email_with_groq.
    by rewrite template_fallback_raises.
  - rewrite groq_with_key by done.
    destruct (requests_post _) as [resp|e].
    + destruct (read_response_without_industry company insights resp Hind)
        as [(r & -> & Hr) | [e ->]].
      * left. eauto.
      * right. rewrite template_fallback_raises by done. eauto.
    + right. rewrite template_fallback_raises by done. eauto.
  - right. exists []. unfold generate_email_with_groq.
    by rewrite template_fallback_raises.
Qed.

(** ** The clean-up of fenced content *)

Lemma append_snoc a c r : (a +:+ String c EmptyString) +:+ r = a +:+ String c r.
Proof. clear. induction a as [|x a IH]; [done|]. by rewrite !append_cons, IH. Qed.

Lemma append_empty_r a : a +:+ EmptyString = a.
Proof. clear. induction a as [|x a IH]; [done|]. by rewrite append_cons, IH. Qed.

Lemma rstrip_app p s t :
  PyStr.rstrip_by p t ≠ EmptyString →
  PyStr.rstrip_by p (s +:+ t) = s +:+ PyStr.rstrip_by p t.
Proof.
  clear. intros Ht. induction s as [|c s IH]; [done|].
  rewrite !append_cons. cbn [PyStr.rstrip_by]. rewrite IH.
  destruct (s +:+ PyStr.rstrip_by p t) eqn:E; [|done].
  destruct s; [|discriminate E]. by destruct Ht.
Qed.

Lemma append_nonempty s t : t ≠ EmptyString → s +:+ t ≠ EmptyString.
Proof. clear. intros Ht. destruct s; [done|]. by rewrite append_cons. Qed.

Lemma splitlines_single_line cur body :
  single_line body →
  PyStr.splitlines_from cur false (body +:+ nl) = [default EmptyString cur +:+ body].
Proof.
  clear. unfold single_line. revert cur.
  induction body as [|c r IH]; intros cur H.
  - cbn. by rewrite append_empty_r.
  - cbn [all_chars] in H. apply andb_true_iff in H as [Hc Hr].
    apply negb_true_iff in Hc. rewrite append_cons.
    cbn [PyStr.splitlines_from andb]. rewrite Hc, IH by done.
    cbn [from_option id]. by rewrite append_snoc.
Qed.

(** A one-line content between a code fence is unwrapped: with the label
    [json] on the opening fence the content is exactly the line; without a
    label the empty first line stays, as a leading line feed. *)
Theorem clean_content_unwraps_fence body :
  single_line body →
  clean_content ("```json" +:+ nl +:+ body +:+ nl +:+ "```") = body
  ∧ clean_content ("```" +:+ nl +:+ body +:+ nl +:+ "```") = nl +:+ body.
Proof.
  clear. intros Hbody. unfold clean_content, PyStr.strip, PyStr.strip_backticks,
    PyStr.strip_by.
  assert (∀ p, PyStr.rstrip_by p (nl +:+ "```") ≠ EmptyString
               → PyStr.rstrip_by p (body +:+ nl +:+ "```")
                 = body +:+ PyStr.rstrip_by p (nl +:+ "```")) as Hr1
    by (intros p Hp; by apply rstrip_app).
  assert (∀ p s, PyStr.rstrip_by p (nl +:+ "```") ≠ EmptyString
                 → PyStr.rstrip_by p (s +:+ body +:+ nl +:+ "```")
                   = s +:+ body +:+ PyStr.rstrip_by p (nl +:+ "```")) as Hr2.
  { intros p s Hp. rewrite rstrip_app; rewrite Hr1 by done; [done|].
    by apply append_nonempty. }
  split.
  - change (PyStr.lstrip_by PyStr.is_space
              ("```json" +:+ nl +:+ body +:+ nl +:+ "```"))
      with (("```json" +:+ nl) +:+ body +:+ nl +:+ "```").
    rewrite (Hr2 PyStr.is_space) by done.
    change (PyStr.rstrip_by PyStr.is_space (nl +:+ "```")) with (nl +:+ "```").
    change (PyStr.startswith "```" (("```json" +:+ nl) +:+ body +:+ nl +:+ "```"))
      with true. cbv iota.
    change (PyStr.lstrip_by (Ascii.eqb "`")
              (("```json" +:+ nl) +:+ body +:+ nl +:+ "```"))
      with (("json" +:+ nl) +:+ body +:+ nl +:+ "```").
    rewrite (Hr2 (Ascii.eqb "`"%char)) by done.
    change (PyStr.rstrip_by (Ascii.eqb "`") (nl +:+ "```")) with nl.
    change (PyStr.splitlines (("json" +:+ nl) +:+ body +:+ nl))
      with ("json" :: PyStr.splitlines_from None false (body +:+ nl)).
    by rewrite splitlines_single_line.
  - change (PyStr.lstrip_by PyStr.is_space
              ("```" +:+ nl +:+ body +:+ nl +:+ "```"))
      with (("```" +:+ nl) +:+ body +:+ nl +:+ "```").
    rewrite (Hr2 PyStr.is_space) by done.
    change (PyStr.rstrip_by PyStr.is_space (nl +:+ "```")) with (nl +:+ "```").
    change (PyStr.startswith "```" (("```" +:+ nl) +:+ body +:+ nl +:+ "```"))
      with true. cbv iota.
    change (PyStr.lstrip_by (Ascii.eqb "`")
              (("```" +:+ nl) +:+ body +:+ nl +:+ "```"))
      with (nl +:+ body +:+ nl +:+ "```").
    rewrite (Hr2 (Ascii.eqb "`"%char) nl) by done.
    change (PyStr.rstrip_by (Ascii.eqb "`") (nl +:+ "```")) with nl.
    change (PyStr.splitlines (nl +:+ body +:+ nl))
      with (EmptyString :: PyStr.splitlines_from None false (body +:+ nl)).
    by rewrite splitlines_single_line.
Qed.

(** ** The Run handler *)

Lemma well_formed_has_count r : well_formed r → has_count r.
Proof.
  clear. intros (_ & Hn & _). unfold has_count, employee_count.
  rewrite (get_count _ Hn). cbn. eauto.
Qed.

Lemma well_formed_typed r :
  well_formed r →
  str_or_absent r "industry" ∧ int_or_absent r "employeeCount"
  ∧ str_or_absent r "location".
Proof.
  clear. intros ([s Hs] & Hn & Hl). repeat split; try done.
  intros v Hv. rewrite Hs in Hv. injection Hv as <-. eauto.
Qed.

Lemma well_formed_filter P `{!∀ r, Decision (P r)} (items : list dict) :
  Forall well_formed items → Forall well_formed (filter P items).
Proof.
  clear. intros Hall. apply Forall_forall. intros r Hr.
  apply list_elem_of_filter in Hr as [_ Hr]. by eapply Forall_forall in Hall.
Qed.

Lemma truthy_rows (l : list dict) :
  Py.truthy (VList (VDict <$> l)) = match l with [] => false | _ :: _ => true end.
Proof. clear. by destruct l. Qed.

Lemma result_row_fields email comp ins :
  result_row email comp ins !! "Website" = Some (Py.get comp "website")
  ∧ result_row email comp ins !! "Industry" = Some (Py.get comp "industry")
  ∧ result_row email comp ins !! "Employees" = Some (Py.get comp "employeeCount")
  ∧ result_row email comp ins !! "Location" = Some (Py.get comp "location")
  ∧ result_row email comp ins !! "Source" = Some (Py.get email "source")
  ∧ result_row email comp ins !! "LLM Error" = Some (Py.get email "error").
Proof. clear. unfold result_row. repeat split; by simplify_map_eq. Qed.

Lemma results_loop_returns key filtered results sent :
  Forall well_formed filtered →
  ∃ rows reqs,
    results_loop key filtered results sent = (Ok (results ++ rows), sent ++ reqs)
    ∧ Forall2 row_of filtered rows
    ∧ (length reqs ≤ length filtered)%nat.
Proof.
  intros Hall. revert results sent.
  induction Hall as [|comp rest Hwf _ IH]; intros results sent.
  - exists [], []. cbn. by rewrite !app_nil_r.
  - destruct (well_formed_typed _ Hwf) as (Hi & Hn & Hl).
    destruct Hwf as ([s Hs] & _).
    cbn [results_loop]. rewrite add_insights_typed by done.
    destruct (email_path_returns key comp
                (take 3 (insights_in_order comp)) s Hs)
      as (r & reqs1 & -> & Hlen & Hclass).
    destruct (IH (results ++ [result_row r comp (take 3 (insights_in_order comp))])
                 (sent ++ reqs1)) as (rows & reqs & -> & Hrows & Hreqs).
    exists (result_row r comp (take 3 (insights_in_order comp)) :: rows),
           (reqs1 ++ reqs).
    split; [by rewrite <- !app_assoc|]. split.
    + constructor; [|done].
      destruct (result_row_fields r comp (take 3 (insights_in_order comp)))
        as (Hw & Hin & He & Hlo & Hso & Her).
      unfold row_of. rewrite Hw, Hin, He, Hlo, Hso, Her.
      repeat split.
      destruct Hclass as [[H1 H2] | (err & H1 & H2 & _)].
      * left. by rewrite (get_lookup _ _ _ H1), (get_absent _ _ H2).
      * right. rewrite (get_lookup _ _ _ H1), (get_lookup _ _ _ H2). eauto.
    + rewrite length_app. cbn [length]. lia.
Qed.

(** On records of the data model's shape a press on Run never raises,
    whatever the credential and the endpoint do.  It shows one row per
    matching company, in the order of the filter, each with the company's
    own fields and an email from the model or from the template; it sends
    one request per matching company at most; and it shows either the
    "no companies matched" warning or the Results section, never both. *)
Theorem run_returns_rows key items industry location size_min size_max :
  Forall well_formed items →
  ∃ filtered page reqs,
    filter_companies items industry location size_min size_max = Ok filtered
    ∧ run key items industry location size_min size_max = (Ok page, reqs)
    ∧ Forall2 row_of filtered (rows page)
    ∧ (length reqs ≤ length filtered)%nat
    ∧ (warning_shown page = true ↔ filtered = [])
    ∧ results_shown page = negb (warning_shown page).
Proof.
  intros Hall.
  assert (Forall has_count items) as Hcount
    by (eapply Forall_impl; [done | apply well_formed_has_count]).
  pose proof (filter_companies_filter items industry location size_min size_max
                Hcount) as Hf.
  set (filtered := filter (matches industry location size_min size_max) items) in *.
  assert (Forall well_formed filtered) as Hwf by by apply well_formed_filter.
  destruct (results_loop_returns key filtered [] [] Hwf)
    as (rs & reqs & Hloop & Hrows & Hreqs).
  exists filtered, {| warning_shown := negb (Py.truthy (VList (VDict <$> filtered)));
                      rows := rs;
                      results_shown := Py.truthy (VList (VDict <$> rs)) |}, reqs.
  split; [done|]. split; [by unfold run; rewrite Hf, Hloop|].
  split; [done|]. split; [done|]. cbn [warning_shown results_shown].
  rewrite !truthy_rows. apply Forall2_length in Hrows. clearbody filtered.
  destruct filtered, rs; try discriminate Hrows; cbn;
    (split; [split; intros H; first [done | discriminate H] | done]).
Qed.

Lemma results_loop_no_credential key filtered results sent :
  no_credential key →
  Forall well_formed filtered →
  ∃ rows,
    results_loop key filtered results sent = (Ok (results ++ rows), sent)
    ∧ length rows = length filtered
    ∧ Forall (λ row, row !! "Source" = Some (VStr "template")
                     ∧ row !! "LLM Error" = Some (VStr "Missing GROQ_API_KEY"))
             rows.
Proof.
  intros Hkey Hall. revert results sent.
  induction Hall as [|comp rest Hwf _ IH]; intros results sent.
  - exists []. cbn. by rewrite app_nil_r.
  - destruct (well_formed_typed _ Hwf) as (Hi & Hn & Hl).
    destruct Hwf as ([s Hs] & _).
    cbn [results_loop]. rewrite add_insights_typed by done.
    destruct (template_fallback_returns comp (take 3 (insights_in_order comp)) s
                "Missing GROQ_API_KEY" Hs) as (t & _ & Hfb).
    assert (generate_email_with_groq key comp (take 3 (insights_in_order comp))
            = (Ok (<["error" := VStr "Missing GROQ_API_KEY"]>
                     (<["source" := VStr "template"]> t)), [])) as ->.
    { unfold generate_email_with_groq. by destruct Hkey as [-> | ->]; rewrite Hfb. }
    rewrite app_nil_r.
    destruct (IH (results ++ [result_row
                   (<["error" := VStr "Missing GROQ_API_KEY"]>
                      (<["source" := VStr "template"]> t)) comp
                   (take 3 (insights_in_order comp))]) sent)
      as (rows & -> & Hlen & Hrows).
    eexists (_ :: rows). split; [by rewrite <- !app_assoc|].
    split; [cbn; by rewrite Hlen|]. constructor; [|done].
    destruct (result_row_fields
                (<["error" := VStr "Missing GROQ_API_KEY"]>
                   (<["source" := VStr "template"]> t)) comp
                (take 3 (insights_in_order comp)))
      as (_ & _ & _ & _ & -> & ->).
    destruct (fallback_lookups t "Missing GROQ_API_KEY") as [H1 H2].
    by rewrite (get_lookup _ _ _ H1), (get_lookup _ _ _ H2).
Qed.

(** Without a credential a press on Run sends no request and shows one row
    per matching company, each from the template and with the
    missing-credential notice as its error. *)
Theorem run_without_credential key items industry location size_min size_max :
  no_credential key →
  Forall well_formed items →
  ∃ filtered page,
    filter_companies items industry location size_min size_max = Ok filtered
    ∧ run key items industry location size_min size_max = (Ok page, [])
    ∧ length (rows page) = length filtered
    ∧ Forall (λ row, row !! "Source" = Some (VStr "template")
                     ∧ row !! "LLM Error" = Some (VStr "Missing GROQ_API_KEY"))
             (rows page).
Proof.
  intros Hkey Hall.
  assert (Forall has_count items) as Hcount
    by (eapply Forall_impl; [done | apply well_formed_has_count]).
  pose proof (filter_companies_filter items industry location size_min size_max
                Hcount) as Hf.
  set (filtered := filter (matches industry location size_min size_max) items) in *.
  assert (Forall well_formed filtered) as Hwf by by apply well_formed_filter.
  destruct (results_loop_no_credential key filtered [] [] Hkey Hwf)
    as (rs & Hloop & Hlen & Hrows).
  eexists filtered, _. split; [done|].
  split; [by unfold run; rewrite Hf, Hloop|]. done.
Qed.

End App.

(** ** The properties on the seed data and on a sample runtime *)

Lemma seed_has_count : Forall has_count SEED_COMPANIES.
Proof. repeat constructor; by eexists. Qed.

(** Range bounds are inclusive (120 employees lie in [100, 150]; nobody has
    fewer than 80). *)
Example filter_range_inclusive :
  filter_companies example_repr SEED_COMPANIES "" "" 100 150 = Ok [technova]
  ∧ filter_companies example_repr SEED_COMPANIES "" "" 120 120 = Ok [technova]
  ∧ filter_companies example_repr SEED_COMPANIES "" "" 0 79 = Ok [].
Proof. repeat split; vm_compute; reflexivity. Qed.

(** Queries are matched whatever their case. *)
Example filter_ignores_case :
  filter_companies example_repr SEED_COMPANIES "SOFT" "" 0 999999 = Ok [technova]
  ∧ filter_companies example_repr SEED_COMPANIES "" "pune" 0 999999
    = Ok [greenmakers].
Proof. repeat split; vm_compute; reflexivity. Qed.

Example insights_software :
  add_insights technova
  = Ok ["SaaS roadmap includes AI/ML modules";
        "Active in developer ecosystem; likely uses CI/CD";
        "Operating in India with regional growth"].
Proof. vm_compute; reflexivity. Qed.

Example insights_unmatched_industry :
  add_insights (company_record "Shop" "https://shop.example" 50 "Retail" "Remote")
  = Ok ["Expanding digital footprint"].
Proof. vm_compute; reflexivity. Qed.

(** The word boundary of the location rule also finds the English word
    "in". *)
Example insights_word_in :
  location_bullets "Made in Germany" = ["Operating in India with regional growth"]
  ∧ location_bullets "Berlin" = [].
Proof. split; vm_compute; reflexivity. Qed.

Lemma C1_witness :
  Forall has_count SEED_COMPANIES
  ∧ filter_companies example_repr SEED_COMPANIES "SOFT" "" 0 999999
    = Ok (filter (matches example_repr "SOFT" "" 0 999999) SEED_COMPANIES).
Proof.
  split.
  - repeat constructor; by eexists.
  - apply (C1_filter_companies_is_list_filter example_repr).
    repeat constructor; by eexists.
Defined.


Lemma C10_witness :
  200 > 100
  ∧ Forall has_count SEED_COMPANIES
  ∧ filter_companies example_repr SEED_COMPANIES "" "" 200 100 = Ok [].
Proof.
  split; [lia|]. split.
  - repeat constructor; by eexists.
  - apply (C10_inverted_range_is_empty example_repr); [lia|].
    repeat constructor; by eexists.
Defined.

Lemma C9_witness :
  ∃ l, add_insights (<["industry" := VStr "Retail"]> ∅) = Ok l
       ∧ (1 ≤ length l ≤ 3)%nat.
Proof.
  apply (C9_add_insights_length (<["industry" := VStr "Retail"]> ∅));
    intros v Hv; vm_compute in Hv;
    first [discriminate Hv | injection Hv as <-; eauto].
Defined.

Lemma C4_witness :
  technova !! "industry" = Some (VStr "Software")
  ∧ ∃ r body,
      generate_email_template example_repr technova ["a"; "b"] = Ok r
      ∧ r !! "body" = Some (VStr body)
      ∧ r !! "wordCount" = Some (VInt (Z.of_nat (whitespace_tokens body))).
Proof.
  split; [reflexivity|].
  destruct (C4_template_deterministic_word_count example_repr technova
              ["a"; "b"] "Software" eq_refl) as (r & body & Hr & _ & Hb & Hw).
  by exists r, body.
Defined.

Lemma C3_witness :
  no_credential None
  ∧ technova !! "industry" = Some (VStr "Software")
  ∧ ∃ r,
      generate_email_with_groq example_repr example_str_exn example_loads
                               (example_post "") None technova []
      = (Ok r, [])
      ∧ r !! "source" = Some (VStr "template")
      ∧ r !! "error" = Some (VStr "Missing GROQ_API_KEY").
Proof.
  split; [by left|]. split; [reflexivity|].
  destruct (C3_missing_credential_falls_back example_repr example_str_exn
              example_loads (example_post "") None technova [] "Software"
              (or_introl eq_refl) eq_refl)
    as (t & r & _ & Hr & Hs & He & _).
  by exists r.
Defined.

Lemma example_answered key company insights content :
  key ≠ "" →
  answered_with example_repr (example_post content) key company insights content.
Proof.
  intros Hk. split; [done|].
  eexists _, (completion content). repeat split.
Qed.

Lemma C6_witness :
  answered_with example_repr (example_post "oops") "k" technova [] "oops"
  ∧ example_loads (clean_content "oops")
    = Raise (LibraryError "JSONDecodeError"
                          "Expecting value: line 1 column 1 (char 0)")
  ∧ technova !! "industry" = Some (VStr "Software")
  ∧ ∃ r err,
      generate_email_with_groq example_repr example_str_exn example_loads
                               (example_post "oops") (Some "k") technova []
      = (Ok r, [build_request example_repr "k" technova []])
      ∧ r !! "source" = Some (VStr "template")
      ∧ r !! "error" = Some (VStr err)
      ∧ err = "ParseError: Expecting value: line 1 column 1 (char 0); content=oops...".
Proof.
  split; [by apply example_answered|]. split; [reflexivity|].
  split; [reflexivity|].
  destruct (C6_unparsable_content_falls_back example_repr example_str_exn
              example_loads (example_post "oops") "k" technova [] "Software"
              "oops"
              (LibraryError "JSONDecodeError"
                            "Expecting value: line 1 column 1 (char 0)")
              (example_answered "k" technova [] "oops" ltac:(done))
              eq_refl eq_refl)
    as (t & r & err & _ & Hr & _ & Hs & He & Herr & _).
  by exists r, err.
Defined.

Lemma C7_witness :
  answered_with example_repr (example_post hello_document) "k" technova []
                hello_document
  ∧ example_loads (clean_content hello_document)
    = Ok (VDict (<["subject" := VStr "Hello"]> ∅))
  ∧ (∃ r,
      generate_email_with_groq example_repr example_str_exn example_loads
                               (example_post hello_document) (Some "k")
                               technova []
      = (Ok r, [build_request example_repr "k" technova []])
      ∧ r !! "source" = Some (VStr "groq")
      ∧ r !! "error" = None
      ∧ r !! "company" = Some (VStr "TechNova Solutions")
      ∧ r !! "subject" = Some (VStr "Hello")
      ∧ r !! "body" = Some (VStr "")
      ∧ r !! "tone" = Some (VStr "consultative")
      ∧ r !! "wordCount" = Some VNone)
  ∧ answered_with example_repr (example_post "[]") "k" technova [] "[]"
  ∧ example_loads (clean_content "[]") = Ok (VList [])
  ∧ technova !! "industry" = Some (VStr "Software")
  ∧ ∃ r,
      generate_email_with_groq example_repr example_str_exn example_loads
                               (example_post "[]") (Some "k") technova []
      = (Ok r, [build_request example_repr "k" technova []])
      ∧ r !! "source" = Some (VStr "template")
      ∧ r !! "error"
        = Some (VStr "ParseError: 'list' object has no attribute 'get'; content=[]...").
Proof.
  split; [by apply example_answered|]. split; [reflexivity|]. split.
  - destruct (proj1 (C7_parsed_content_result example_repr example_str_exn
                example_loads (example_post hello_document) "k" technova []
                hello_document (VDict (<["subject" := VStr "Hello"]> ∅))
                (example_answered "k" technova [] hello_document ltac:(done))
                eq_refl)
              (<["subject" := VStr "Hello"]> ∅) eq_refl)
      as (r & Hr & Hs & He & Hc & Hsub & Hb & Ht & Hw).
    exists r. repeat split; try done.
  - split; [by apply example_answered|]. split; [reflexivity|].
    split; [reflexivity|].
    destruct (proj2 (C7_parsed_content_result example_repr example_str_exn
                example_loads (example_post "[]") "k" technova []
                "[]" (VList [])
                (example_answered "k" technova [] "[]" ltac:(done))
                eq_refl)
              ltac:(done) "Software" eq_refl)
      as (t & r & err & _ & Hr & _ & Hs & He & Herr & _).
    exists r. split; [exact Hr|]. split; [exact Hs|]. by rewrite He, Herr.
Defined.

(** C7, as the claim words it, fails: the content [[]] is valid JSON, yet
    the result is the template fallback with a parse error, because a list
    has no [get]. *)
Lemma C7_counterexample :
  answered_with example_repr (example_post "[]") "k" technova [] "[]"
  ∧ example_loads (clean_content "[]") = Ok (VList [])
  ∧ ∃ r,
      generate_email_with_groq example_repr example_str_exn example_loads
                               (example_post "[]") (Some "k") technova []
      = (Ok r, [build_request example_repr "k" technova []])
      ∧ r !! "source" = Some (VStr "template")
      ∧ r !! "source" ≠ Some (VStr "groq")
      ∧ r !! "error"
        = Some (VStr "ParseError: 'list' object has no attribute 'get'; content=[]...").
Proof.
  split; [by apply example_answered|]. split; [reflexivity|].
  eexists. split; [vm_compute; reflexivity|].
  repeat split; try (vm_compute; reflexivity).
  vm_compute. discriminate.
Qed.

(** ** The further properties on samples *)

Lemma seed_well_formed : Forall well_formed SEED_COMPANIES.
Proof.
  repeat constructor; try (by eexists);
    intros v Hv; vm_compute in Hv; injection Hv as <-; eauto.
Qed.

Lemma filter_companies_query_normal_form_witness :
  normalised "  SOFT " = normalised "soft"
  ∧ normalised "   " = normalised ""
  ∧ filter_companies example_repr SEED_COMPANIES "  SOFT " "   " 0 999999
    = filter_companies example_repr SEED_COMPANIES "soft" "" 0 999999.
Proof.
  split; [reflexivity|]. split; [reflexivity|].
  apply (filter_companies_query_normal_form example_repr); reflexivity.
Defined.

Lemma filter_companies_twice_witness :
  Forall has_count SEED_COMPANIES
  ∧ ∃ out,
      filter_companies example_repr SEED_COMPANIES "" "in" 0 150 = Ok out
      ∧ filter_companies example_repr out "" "in" 100 999999
        = filter_companies example_repr SEED_COMPANIES "" "in" 100 150.
Proof.
  split; [repeat constructor; by eexists|].
  destruct (filter_companies_twice example_repr SEED_COMPANIES "" "in"
              0 150 100 999999) as (out & H1 & H2 & _).
  - repeat constructor; by eexists.
  - exists out. split; [exact H1 | exact H2].
Defined.

Lemma filter_companies_missing_industry_witness :
  Forall has_count [∅ : dict]
  ∧ ∃ out,
      filter_companies example_repr [∅] "soft" "" 0 999999 = Ok out
      ∧ ∀ r, r ∈ out → r !! "industry" = None → normalised "soft" = "".
Proof.
  split; [repeat constructor; by eexists|].
  apply (filter_companies_missing_industry example_repr [∅]).
  repeat constructor; by eexists.
Defined.


Lemma add_insights_large_known_industry_witness :
  150 < count_of aerologix
  ∧ known_industry aerologix
  ∧ add_insights aerologix
    = Ok (industry_bullets (PyStr.lower (text_of aerologix "industry"))
          ++ ["Mid-market team with scaling pains"]).
Proof.
  assert (known_industry aerologix) as Hknown.
  { right. right. by exists "", "s". }
  split; [reflexivity|]. split; [exact Hknown|].
  destruct (company_record_typed "AeroLogix Systems" "https://aerologix.example"
              210 "Logistics" "Hyderabad, IN") as (Hi & Hn & Hl).
  exact (proj1 (add_insights_large_known_industry aerologix Hi Hn Hl
                  eq_refl Hknown)).
Defined.

Lemma generate_email_with_groq_returns_witness :
  technova !! "industry" = Some (VStr "Software")
  ∧ ∃ r reqs,
      generate_email_with_groq example_repr example_str_exn example_loads
                               unauthorized_post (Some "k") technova []
      = (Ok r, reqs)
      ∧ (length reqs ≤ 1)%nat.
Proof.
  split; [reflexivity|].
  destruct (generate_email_with_groq_returns example_repr example_str_exn
              example_loads unauthorized_post (Some "k") technova []
              "Software" eq_refl) as (r & reqs & H & Hlen & _).
  by exists r, reqs.
Defined.

Lemma request_exception_falls_back_witness :
  "k" ≠ ""
  ∧ unreachable_post (build_request example_repr "k" technova [])
    = Raise (LibraryError "ConnectionError" "connection refused")
  ∧ technova !! "industry" = Some (VStr "Software")
  ∧ ∃ t,
      generate_email_with_groq example_repr example_str_exn example_loads
                               unreachable_post (Some "k") technova []
      = (Ok (<["error" := VStr "RequestError: connection refused; response="]>
               (<["source" := VStr "template"]> t)),
         [build_request example_repr "k" technova []]).
Proof.
  split; [done|]. split; [reflexivity|]. split; [reflexivity|].
  destruct (request_exception_falls_back example_repr example_str_exn
              example_loads unreachable_post "k" technova [] "Software"
              (LibraryError "ConnectionError" "connection refused")
              ltac:(done) eq_refl eq_refl) as (t & _ & H).
  by exists t.
Defined.

Lemma http_failure_falls_back_witness :
  "k" ≠ ""
  ∧ raise_for_status unauthorized
    = Raise (LibraryError "HTTPError" "401 Client Error: Unauthorized")
  ∧ technova !! "industry" = Some (VStr "Software")
  ∧ ∃ t,
      generate_email_with_groq example_repr example_str_exn example_loads
                               unauthorized_post (Some "k") technova []
      = (Ok (<["error" :=
                 VStr "RequestError: 401 Client Error: Unauthorized; response=invalid api key"]>
               (<["source" := VStr "template"]> t)),
         [build_request example_repr "k" technova []]).
Proof.
  split; [done|]. split; [reflexivity|]. split; [reflexivity|].
  destruct (http_failure_falls_back example_repr example_str_exn
              example_loads unauthorized_post "k" technova [] "Software"
              unauthorized
              (LibraryError "HTTPError" "401 Client Error: Unauthorized")
              ltac:(done) eq_refl (or_introl eq_refl) eq_refl)
    as (t & _ & H & _).
  by exists t.
Defined.

Lemma non_string_content_falls_back_witness :
  "k" ≠ ""
  ∧ message_content (VDict (<["choices" :=
        VList [VDict (<["message" := VDict (<["content" := VNone]> ∅)]> ∅)]]> ∅))
    = Ok VNone
  ∧ technova !! "industry" = Some (VStr "Software")
  ∧ ∃ t,
      generate_email_with_groq example_repr example_str_exn example_loads
                               null_content_post (Some "k") technova []
      = (Ok (<["error" :=
                 VStr "RequestError: 'NoneType' object has no attribute 'strip'; response="]>
               (<["source" := VStr "template"]> t)),
         [build_request example_repr "k" technova []]).
Proof.
  split; [done|]. split; [reflexivity|]. split; [reflexivity|].
  destruct (non_string_content_falls_back example_repr example_str_exn
              example_loads null_content_post "k" technova [] "Software"
              null_content _ VNone
              ltac:(done) eq_refl eq_refl eq_refl eq_refl ltac:(done) eq_refl)
    as (t & _ & H).
  by exists t.
Defined.

Lemma generate_email_with_groq_without_industry_witness :
  (∅ : dict) !! "industry" = None
  ∧ ∃ reqs,
      generate_email_with_groq example_repr example_str_exn example_loads
                               (example_post "oops") (Some "k") ∅ []
      = (Raise (AttributeError "NoneType" "lower"), reqs).
Proof.
  split; [reflexivity|].
  destruct (generate_email_with_groq_without_industry example_repr
              example_str_exn example_loads (example_post "oops") (Some "k")
              ∅ [] (lookup_empty "industry"))
    as [(r & reqs & H & Hsrc) | H]; [|exact H].
  exfalso. vm_compute in H. discriminate H.
Defined.

Lemma clean_content_unwraps_fence_witness :
  single_line hello_document
  ∧ clean_content ("```json" +:+ nl +:+ hello_document +:+ nl +:+ "```")
    = hello_document
  ∧ example_loads
      (clean_content ("```json" +:+ nl +:+ hello_document +:+ nl +:+ "```"))
    = Ok (VDict (<["subject" := VStr "Hello"]> ∅)).
Proof.
  split; [reflexivity|].
  pose proof (proj1 (clean_content_unwraps_fence hello_document eq_refl)) as H.
  split; [exact H|]. rewrite H. reflexivity.
Defined.

Lemma run_returns_rows_witness :
  Forall well_formed SEED_COMPANIES
  ∧ ∃ page reqs,
      run example_repr example_str_exn example_loads unauthorized_post
          (Some "k") SEED_COMPANIES "" "in" 0 999999
      = (Ok page, reqs)
      ∧ (length reqs ≤ 3)%nat
      ∧ results_shown page = negb (warning_shown page).
Proof.
  pose proof seed_well_formed as Hseed. split; [exact Hseed|].
  destruct (run_returns_rows example_repr example_str_exn example_loads
              unauthorized_post (Some "k") SEED_COMPANIES "" "in" 0 999999
              Hseed)
    as (filtered & page & reqs & Hf & Hrun & Hrows & Hreqs & _ & Hshown).
  exists page, reqs. split; [exact Hrun|]. split; [|exact Hshown].
  assert (filtered = SEED_COMPANIES) as ->.
  { assert (filter_companies example_repr SEED_COMPANIES "" "in" 0 999999
            = Ok SEED_COMPANIES) as H by (vm_compute; reflexivity).
    rewrite H in Hf. by injection Hf. }
  exact Hreqs.
Defined.

Lemma run_without_credential_witness :
  no_credential None
  ∧ Forall well_formed SEED_COMPANIES
  ∧ ∃ page,
      run example_repr example_str_exn example_loads (example_post "")
          None SEED_COMPANIES "" "IN" 0 999999
      = (Ok page, [])
      ∧ length (rows page) = 3%nat.
Proof.
  pose proof seed_well_formed as Hseed.
  split; [by left|]. split; [exact Hseed|].
  destruct (run_without_credential example_repr example_str_exn example_loads
              (example_post "") None SEED_COMPANIES "" "IN" 0 999999
              (or_introl eq_refl) Hseed)
    as (filtered & page & Hf & Hrun & Hlen & _).
  exists page. split; [exact Hrun|]. rewrite Hlen.
  assert (filter_companies example_repr SEED_COMPANIES "" "IN" 0 999999
          = Ok SEED_COMPANIES) as H by (vm_compute; reflexivity).
  rewrite H in Hf. by injection Hf as <-.
Defined.

Lemma location_rule_ascii_bounds_witness :
  ascii_text "Made in Germany"
  ∧ location_bullets "Made in Germany"
    = ["Operating in India with regional growth"]
  ∧ ascii_text "Paris, FR"
  ∧ location_bullets "Paris, FR" = [].
Proof.
  destruct location_rule_ascii_bounds as (_ & Hword & Hnone).
  split; [reflexivity|]. split.
  - apply (Hword "Made " "in" " Germany"); reflexivity.
  - split; [reflexivity|]. apply Hnone; [reflexivity|].
    intros H. apply contains_spec in H. vm_compute in H. discriminate H.
Defined.

